(** * pycalendar: a one-month printable calendar

    A shallow embedding of [pycalendar.py] together with the parts of the
    Python standard library ([calendar], [datetime]) and of the drawing
    surface (reportlab's [Canvas]) that the script calls.

    Conventions.
    - Python [int]s are [Z]; [//] is [Z.div] and [%] is [Z.modulo] (both
      round towards minus infinity, as in Python).
    - Python [float]s are read as exact rationals [Q]: lengths on the page
      are compared with [==] and rounding is not modelled.
    - Mutation is explicit: a computation is a function from the mutable
      world (the [calendar] module's global and the canvas object) to the
      new world and either a raised exception or a value.  An exception
      keeps the mutations made before it was raised. *)

From Stdlib Require Import String Ascii ZArith QArith Qminmax Bool List Lia Lqa.
From Stdlib Require Import DecimalString DecimalZ.
Import ListNotations.

Local Open Scope Z_scope.

(** ** Exceptions *)

Inductive Exn : Type :=
| IllegalMonthError (month : Z)
| IllegalWeekdayError (weekday : Z)
| ZeroDivisionError
| IndexError
| KeyError
| ValueError
| OverflowError
| Raised (what : string).

(** Pure computations that may raise. *)
Definition Result (A : Type) : Type := (Exn + A)%type.

(** ** Python built-ins used by the script *)

Module Py.

(** [len(l)] *)
Definition len {A} (l : list A) : Z := Z.of_nat (length l).

(** [range(lo, hi)] *)
Definition range (lo hi : Z) : list Z :=
  map (fun k => lo + Z.of_nat k) (seq 0 (Z.to_nat (hi - lo))).

(** [range(lo, hi, step)] for a positive [step]: [lo, lo+step, ...] below
    [hi]; there are [ceil((hi - lo) / step)] of them. *)
Definition range3 (lo hi step : Z) : list Z :=
  map (fun k => lo + step * Z.of_nat k)
      (seq 0 (Z.to_nat ((hi - lo + step - 1) / step))).

(** [itertools.repeat(x, n)]: nothing when [n <= 0]. *)
Definition repeat {A} (x : A) (n : Z) : list A := List.repeat x (Z.to_nat n).

(** [l[i:j]] for [0 <= i]: the slice is clipped at the end of [l] and is
    empty when [j <= i]. *)
Definition slice {A} (l : list A) (i j : Z) : list A :=
  firstn (Z.to_nat (j - i)) (skipn (Z.to_nat i) l).

(** [enumerate(l)] *)
Definition enumerate {A} (l : list A) : list (Z * A) :=
  combine (map Z.of_nat (seq 0 (length l))) l.

(** [str(n)] for an [int].  CPython refuses to convert an [int] of more
    than 4300 digits; the model is only used below that size. *)
Definition str (n : Z) : string := NilZero.string_of_int (Z.to_int n).

(** [int(s)] for a string; [None] stands for [ValueError]. *)
Definition int (s : string) : option Z :=
  option_map Z.of_int (NilZero.int_of_string s).

(** [min(a, b)] on floats: [b] only when [b < a]. *)
Definition min (a b : Q) : Q := Qmin a b.

(** [not n] for an [int]. *)
Definition not_int (n : Z) : bool := n =? 0.

(** A [bool] used as a number. *)
Definition int_of_bool (b : bool) : Z := if b then 1 else 0.

(** [a / b] on floats. *)
Definition truediv (a b : Q) : Result Q :=
  if Qeq_bool b 0 then inl ZeroDivisionError else inr (a / b)%Q.

(** [l[i]] for [0 <= i]. *)
Definition getitem {A} (l : list A) (i : Z) : Result A :=
  match nth_error l (Z.to_nat i) with
  | Some x => inr x
  | None => inl IndexError
  end.

(** A [dict] literal, as its items; [d.get(k, default)] and [d[k]]. *)
Definition dict (K V : Type) : Type := list (K * V).

Fixpoint dict_find {K V} (eqb : K -> K -> bool) (d : dict K V) (k : K)
  : option V :=
  match d with
  | [] => None
  | (k', v) :: d' => if eqb k' k then Some v else dict_find eqb d' k
  end.

Definition dict_get {K V} (eqb : K -> K -> bool) (d : dict K V) (k : K)
           (default : V) : V :=
  match dict_find eqb d k with Some v => v | None => default end.

Definition dict_getitem {K V} (eqb : K -> K -> bool) (d : dict K V) (k : K)
  : Result V :=
  match dict_find eqb d k with Some v => inr v | None => inl KeyError end.

End Py.

(** ** [datetime.date]: the proleptic Gregorian ordinal

    Python's standard library, as in [Lib/datetime.py] of CPython 3.11. *)

Module datetime.

Definition MINYEAR : Z := 1.
Definition MAXYEAR : Z := 9999.

Definition _DAYS_IN_MONTH : list Z :=
  [-1; 31; 28; 31; 30; 31; 30; 31; 31; 30; 31; 30; 31].

(** The table the module builds by summing [_DAYS_IN_MONTH[1:]]. *)
Definition _DAYS_BEFORE_MONTH : list Z :=
  fst (fold_left (fun '(tbl, dbm) dim => (tbl ++ [dbm], dbm + dim))
                 (skipn 1 _DAYS_IN_MONTH) ([-1], 0)).

Definition _is_leap (year : Z) : bool :=
  (year mod 4 =? 0) && (negb (year mod 100 =? 0) || (year mod 400 =? 0)).

Definition _days_before_year (year : Z) : Z :=
  let y := year - 1 in
  y * 365 + y / 4 - y / 100 + y / 400.

Definition _days_before_month (year month : Z) : Z :=
  nth (Z.to_nat month) _DAYS_BEFORE_MONTH 0
  + Py.int_of_bool ((2 <? month) && _is_leap year).

Definition _ymd2ord (year month day : Z) : Z :=
  _days_before_year year + _days_before_month year month + day.

(** [date(year, month, day).weekday()]: Monday is 0, Sunday is 6. *)
Definition date_weekday (year month day : Z) : Z :=
  (_ymd2ord year month day + 6) mod 7.

(** What the script reads of a [datetime] object. *)
Record t : Type := mk { year : Z; month : Z }.

(** The constructor of [datetime] accepts exactly these. *)
Definition valid (d : t) : Prop :=
  MINYEAR <= year d <= MAXYEAR /\ 1 <= month d <= 12.

End datetime.

(** ** The [calendar] module

    Python's standard library, as in [Lib/calendar.py] of CPython 3.11.
    [month_abbr] depends on the locale; it is given for the C locale. *)

Module calendar.

Definition MONDAY : Z := 0.
Definition SUNDAY : Z := 6.
Definition February : Z := 2.

Definition mdays : list Z :=
  [0; 31; 28; 31; 30; 31; 30; 31; 31; 30; 31; 30; 31].

Definition month_abbr : list string :=
  [EmptyString; "Jan"; "Feb"; "Mar"; "Apr"; "May"; "Jun";
   "Jul"; "Aug"; "Sep"; "Oct"; "Nov"; "Dec"]%string.

Definition isleap (year : Z) : bool :=
  (year mod 4 =? 0) && (negb (year mod 100 =? 0) || (year mod 400 =? 0)).

Definition weekday (year month day : Z) : Z :=
  let year :=
    if negb ((datetime.MINYEAR <=? year) && (year <=? datetime.MAXYEAR))
    then 2000 + year mod 400 else year in
  datetime.date_weekday year month day.

Definition monthrange (year month : Z) : Result (Z * Z) :=
  if negb ((1 <=? month) && (month <=? 12)) then inl (IllegalMonthError month)
  else
    let day1 := weekday year month 1 in
    let ndays := nth (Z.to_nat month) mdays 0
                 + Py.int_of_bool ((month =? February) && isleap year) in
    inr (day1, ndays).

(** [Calendar.itermonthdays], collected into a list; [_firstweekday] is the
    attribute of the calendar object and [firstweekday] its getter. *)
Definition itermonthdays (_firstweekday year month : Z) : Result (list Z) :=
  match monthrange year month with
  | inl e => inl e
  | inr (day1, ndays) =>
      let firstweekday := _firstweekday mod 7 in
      let days_before := (day1 - firstweekday) mod 7 in
      let days_after := (firstweekday - day1 - ndays) mod 7 in
      inr (Py.repeat 0 days_before ++ Py.range 1 (ndays + 1)
           ++ Py.repeat 0 days_after)
  end.

Definition monthdayscalendar (_firstweekday year month : Z)
  : Result (list (list Z)) :=
  match itermonthdays _firstweekday year month with
  | inl e => inl e
  | inr days =>
      inr (map (fun i => Py.slice days i (i + 7))
               (Py.range3 0 (Py.len days) 7))
  end.

End calendar.


(** ** The drawing surface: reportlab's [Canvas]

    Modelled from the spec: the drawing surface is reportlab's [Canvas], a
    library that is not part of the repository.  The script only uses it
    through the calls below (set the font, set the stroke width, outline a
    rectangle, draw a string at a point, save and restore the drawing
    parameters, finish the page).  A canvas holds the current drawing
    parameters, the stack of saved parameters, the marks put on the current
    page (each with the parameters in force when it was drawn) and the
    finished pages. *)

Module reportlab.

Record GState : Type := mkGState {
  fontName : string;
  fontSize : Q;
  lineWidth : Q
}.

Inductive Mark : Type :=
| rect_mark (x y width height : Q)
| string_mark (x y : Q) (text : string).

Definition Page : Type := list (GState * Mark).

Record Canvas : Type := mkCanvas {
  filename : string;
  pagesize : Q * Q;
  gstate : GState;
  state_stack : list GState;
  code : Page;
  pages : list Page
}.

Definition init_graphics_state : GState :=
  {| fontName := "Helvetica"; fontSize := 12; lineWidth := 1 |}.

(** [Canvas(filename, pagesize)] *)
Definition new (filename : string) (pagesize : Q * Q) : Canvas :=
  {| filename := filename; pagesize := pagesize;
     gstate := init_graphics_state; state_stack := [];
     code := []; pages := [] |}.

Definition with_gstate (g : GState) (c : Canvas) : Canvas :=
  {| filename := filename c; pagesize := pagesize c;
     gstate := g; state_stack := state_stack c;
     code := code c; pages := pages c |}.

Definition with_stack (st : list GState) (c : Canvas) : Canvas :=
  {| filename := filename c; pagesize := pagesize c;
     gstate := gstate c; state_stack := st;
     code := code c; pages := pages c |}.

Definition draw (m : Mark) (c : Canvas) : Canvas :=
  {| filename := filename c; pagesize := pagesize c;
     gstate := gstate c; state_stack := state_stack c;
     code := code c ++ [(gstate c, m)]; pages := pages c |}.

Definition saveState (c : Canvas) : Canvas :=
  with_stack (gstate c :: state_stack c) c.

(** Popping an empty stack raises. *)
Definition restoreState (c : Canvas) : Result Canvas :=
  match state_stack c with
  | [] => inl IndexError
  | g :: st => inr (with_gstate g (with_stack st c))
  end.

Definition setFont (name : string) (size : Q) (c : Canvas) : Canvas :=
  with_gstate {| fontName := name; fontSize := size;
                 lineWidth := lineWidth (gstate c) |} c.

Definition setLineWidth (width : Q) (c : Canvas) : Canvas :=
  with_gstate {| fontName := fontName (gstate c);
                 fontSize := fontSize (gstate c);
                 lineWidth := width |} c.

Definition rect (x y width height : Q) (c : Canvas) : Canvas :=
  draw (rect_mark x y width height) c.

Definition drawString (x y : Q) (text : string) (c : Canvas) : Canvas :=
  draw (string_mark x y text) c.

(** [showPage] closes the page and starts the next one with fresh
    drawing parameters and an empty stack. *)
Definition showPage (c : Canvas) : Canvas :=
  {| filename := filename c; pagesize := pagesize c;
     gstate := init_graphics_state; state_stack := [];
     code := []; pages := pages c ++ [code c] |}.

(** [save] closes a page in progress and gives the document to write. *)
Definition save (c : Canvas) : Canvas :=
  match code c with [] => c | _ :: _ => showPage c end.

End reportlab.

(** ** Mutable state and exceptions *)

(** What a call of [add_calendar_page] can read and write: the first weekday
    stored in the [calendar] module's shared calendar object [c], and the
    canvas object it was given. *)
Record World : Type := mkWorld {
  calendar_c_firstweekday : Z;
  canvas : reportlab.Canvas
}.

Definition M (A : Type) : Type := World -> World * Result A.

Definition ret {A} (x : A) : M A := fun w => (w, inr x).

Definition raise {A} (e : Exn) : M A := fun w => (w, inl e).

Definition bind {A B} (m : M A) (k : A -> M B) : M B :=
  fun w =>
    match m w with
    | (w', inl e) => (w', inl e)
    | (w', inr x) => k x w'
    end.

Declare Scope py_scope.
Delimit Scope py_scope with py.
Notation "x <- m ;; k" := (bind m (fun x => k))
  (at level 61, m at next level, right associativity) : py_scope.
Notation "m ;; k" := (bind m (fun _ => k))
  (at level 61, right associativity) : py_scope.
Local Open Scope py_scope.

(** A pure computation that may raise, run in the world. *)
Definition lift {A} (r : Result A) : M A := fun w => (w, r).

(** A method of the canvas object that returns nothing. *)
Definition on_canvas (f : reportlab.Canvas -> reportlab.Canvas) : M unit :=
  fun w => ({| calendar_c_firstweekday := calendar_c_firstweekday w;
               canvas := f (canvas w) |}, inr tt).

(** A method of the canvas object that may raise; the canvas is left as it
    is when it does. *)
Definition on_canvas_try (f : reportlab.Canvas -> Result reportlab.Canvas)
  : M unit :=
  fun w =>
    match f (canvas w) with
    | inl e => (w, inl e)
    | inr c => ({| calendar_c_firstweekday := calendar_c_firstweekday w;
                   canvas := c |}, inr tt)
    end.

(** [for x in l: body] *)
Fixpoint for_each {A} (l : list A) (body : A -> M unit) : M unit :=
  match l with
  | [] => ret tt
  | x :: l' => body x ;; for_each l' body
  end.

(** [calendar.setfirstweekday] and [calendar.monthcalendar], which act on
    the module's calendar object [c]. *)
Definition calendar_setfirstweekday (firstweekday : Z) : M unit :=
  if negb ((calendar.MONDAY <=? firstweekday) && (firstweekday <=? calendar.SUNDAY))
  then raise (IllegalWeekdayError firstweekday)
  else fun w => ({| calendar_c_firstweekday := firstweekday;
                    canvas := canvas w |}, inr tt).

Definition calendar_monthcalendar (year month : Z) : M (list (list Z)) :=
  fun w => (w, calendar.monthdayscalendar (calendar_c_firstweekday w) year month).

(** ** The script *)

Local Open Scope Q_scope.

(** Supporting languages like French should be as simple as editing this.
    The key [None] holds the default. *)
Definition ORDINALS : Py.dict (option Z) string :=
  [ (Some 1%Z, "st"); (Some 2%Z, "nd"); (Some 3%Z, "rd");
    (Some 21%Z, "st"); (Some 22%Z, "nd"); (Some 23%Z, "rd");
    (Some 31%Z, "st"); (None, "th") ]%string.

Definition key_eqb (a b : option Z) : bool :=
  match a, b with
  | Some x, Some y => (x =? y)%Z
  | None, None => true
  | _, _ => false
  end.

Record Font : Type := mkFont { name : string; size : Q }.
Record Geom : Type := mkGeom { x : Q; y : Q; width : Q; height : Q }.
Record Size : Type := mkSize { size_width : Q; size_height : Q }.

(** The type of [cell_cb]; the canvas it draws on is the one in the world. *)
Definition CellCallback : Type := Z -> Geom -> Font -> bool -> M unit.

(** [with save_state(canvas): body].  The generator behind the context
    manager has no [try]/[finally]: when [body] raises, the exception is
    thrown into the generator at its [yield] and leaves it there, so
    [restoreState] only runs when [body] completes. *)
Definition save_state {A} (body : M A) : M A :=
  on_canvas reportlab.saveState ;;
  r <- body ;;
  on_canvas_try reportlab.restoreState ;;
  ret r.

(** The constants set up at the top of [add_calendar_page]. *)
Definition scale_factor (rect : Geom) : Q := Py.min (width rect) (height rect).

Definition line_width (rect : Geom) : Q := scale_factor rect * 0.0025.

Definition font (rect : Geom) : Font :=
  mkFont "Helvetica" (scale_factor rect * 0.028).

(** Leave room for the stroke width around the outermost cells. *)
Definition inset (rect : Geom) : Geom :=
  mkGeom (x rect + line_width rect)
         (y rect + line_width rect)
         (width rect - line_width rect * 2)
         (height rect - line_width rect * 2).

Definition cellsize (rect : Geom) (rows : Z) : Result Size :=
  match Py.truediv (height rect) (inject_Z rows) with
  | inl e => inl e
  | inr h => inr (mkSize (width rect / 7) h)
  end.

(** The rectangle handed to the callback for the cell at [row], [col];
    [rect] is the inset rectangle. *)
Definition cell_geom (rect : Geom) (cellsize : Size) (rows row col : Z) : Geom :=
  {| x := x rect + size_width cellsize * inject_Z col;
     y := y rect + inject_Z (rows - row) * size_height cellsize;
     width := size_width cellsize;
     height := size_height cellsize |}.

(** [cal[row][col]] *)
Definition grid_cell (cal : list (list Z)) (row col : Z) : Result Z :=
  match Py.getitem cal row with
  | inl e => inl e
  | inr week => Py.getitem week col
  end.

(** Upper-left unless the month starts on the first day of the week, then
    lower-right. *)
Definition label_slot (cal : list (list Z)) (rows : Z) : Result (Z * Z) :=
  match grid_cell cal 0 0 with
  | inl e => inl e
  | inr day => inr (if (day =? 0)%Z then (0, 0)%Z else (rows - 1, 6)%Z)
  end.

Definition draw_month_label (year month : Z) (rect : Geom) (font : Font)
  : M unit :=
  let margin := mkSize (size font * 0.5) (size font * 1.3) in
  let text_x := x rect + size_width margin in
  let text_y := y rect - size_height margin in
  abbr <- lift (Py.getitem calendar.month_abbr month) ;;
  let text := (abbr ++ " " ++ Py.str year)%string in
  on_canvas (reportlab.drawString text_x text_y text).

Section Renderer.

(** [canvas.stringWidth(text, fontName, fontSize)]: the font metrics are
    the drawing back end's. *)
Variable stringWidth : string -> string -> Q -> Q.

(** Draw a calendar cell with the given characteristics. *)
Definition draw_cell : CellCallback :=
  fun day rect font ordinals =>
    (* Skip drawing cells that don't correspond to a date in this month *)
    if Py.not_int day then ret tt
    else
      let margin := mkSize (size font * 0.5) (size font * 1.3) in
      (* Draw the cell border *)
      on_canvas (reportlab.rect (x rect) (y rect - height rect)
                                (width rect) (height rect)) ;;
      let day := Py.str day in
      (* Draw the number *)
      let text_x := x rect + size_width margin in
      let text_y := y rect - size_height margin in
      on_canvas (reportlab.drawString text_x text_y day) ;;
      if ordinals then
        (* Draw the lifted ordinal number suffix *)
        n <- lift (match Py.int day with
                   | Some n => inr n
                   | None => inl ValueError
                   end) ;;
        default <- lift (Py.dict_getitem key_eqb ORDINALS None) ;;
        let ordinal_str := Py.dict_get key_eqb ORDINALS (Some n) default in
        let number_width := stringWidth day (name font) (size font) in
        on_canvas (reportlab.drawString
                     (text_x + number_width)
                     (text_y + size_height margin * 0.1) ordinal_str)
      else ret tt.

End Renderer.

(** The first two statements of [add_calendar_page]: the week grid of the
    month, with the weeks starting on [first_weekday]. *)
Definition month_grid (datetime_obj : datetime.t) (first_weekday : Z)
  : M (list (list Z)) :=
  calendar_setfirstweekday first_weekday ;;
  calendar_monthcalendar (datetime.year datetime_obj)
                         (datetime.month datetime_obj).

(** The body of the inner loop: one cell, drawn by the callback. *)
Definition render_cell (cell_cb : CellCallback) (line_width : Q) (font : Font)
           (ordinals : bool) (day : Z) (cell : Geom) : M unit :=
  (* Give each call to cell_cb a known canvas state *)
  save_state (
    (* Set reasonable default drawing parameters *)
    on_canvas (reportlab.setFont (name font) (size font)) ;;
    on_canvas (reportlab.setLineWidth line_width) ;;
    cell_cb day cell font ordinals).

(** The month, year label. *)
Definition render_label (datetime_obj : datetime.t) (line_width : Q)
           (font : Font) (cal : list (list Z)) (rect : Geom) (cellsize : Size)
           (rows : Z) : M unit :=
  save_state (
    (* Set reasonable default drawing parameters *)
    on_canvas (reportlab.setFont (name font) (size font)) ;;
    on_canvas (reportlab.setLineWidth line_width) ;;
    slot <- lift (label_slot cal rows) ;;
    let '(row, col) := slot in
    draw_month_label (datetime.year datetime_obj) (datetime.month datetime_obj)
                     (cell_geom rect cellsize rows row col) font).

(** Create a one-month calendar page on the canvas.  The script returns the
    canvas object it was given; here that is the canvas of the world. *)
Definition add_calendar_page (rect : Geom) (datetime_obj : datetime.t)
           (cell_cb : CellCallback) (ordinals : bool) (first_weekday : Z)
  : M unit :=
  cal <- month_grid datetime_obj first_weekday ;;
  (* set up constants *)
  let line_width := line_width rect in
  let font := font rect in
  let rows := Py.len cal in
  let rect := inset rect in
  cellsize <- lift (cellsize rect rows) ;;
  (* now fill in the day numbers and any data *)
  for_each (Py.enumerate cal) (fun '(row, week) =>
    for_each (Py.enumerate week) (fun '(col, day) =>
      render_cell cell_cb line_width font ordinals day
                  (cell_geom rect cellsize rows row col))) ;;
  (* Draw the month, year label *)
  render_label datetime_obj line_width font cal rect cellsize rows ;;
  (* finish this page *)
  on_canvas reportlab.showPage.

(** Files on disk: the document stored under each path. *)
Definition Files : Type := string -> option reportlab.Canvas.

Definition write_file (fs : Files) (path : string) (doc : reportlab.Canvas)
  : Files :=
  fun p => if String.eqb p path then Some doc else fs p.

(** Helper to apply [add_calendar_page] and save a ready-to-print file.  The
    canvas is an object of its own, made here; the [calendar] module's first
    weekday [fwd] and the files [fs] are what the caller shares with it. *)
Definition generate_pdf (stringWidth : string -> string -> Q -> Q)
           (datetime_obj : datetime.t) (outfile : string) (size : Q * Q)
           (ordinals : bool) (first_weekday : Z) (fwd : Z) (fs : Files)
  : (Z * Files) * Result unit :=
  let size := mkSize (fst size) (snd size) in
  let canvas0 := reportlab.new outfile (size_width size, size_height size) in
  (* margins *)
  let wmar := size_width size / 50 in
  let hmar := size_height size / 50 in
  let size := mkSize (size_width size - 2 * wmar) (size_height size - 2 * hmar) in
  match add_calendar_page (mkGeom wmar hmar (size_width size) (size_height size))
                          datetime_obj (draw_cell stringWidth) ordinals
                          first_weekday
                          {| calendar_c_firstweekday := fwd; canvas := canvas0 |}
  with
  | (w, inl e) => ((calendar_c_firstweekday w, fs), inl e)
  | (w, inr _) =>
      ((calendar_c_firstweekday w,
        write_file fs outfile (reportlab.save (canvas w))), inr tt)
  end.

(** Sample font metrics for trying the script out: every digit of Helvetica
    is 0.556 em wide. *)
Definition digits_width (text fontName : string) (fontSize : Q) : Q :=
  inject_Z (Z.of_nat (String.length text)) * 0.556 * fontSize.

Definition letter_landscape : Q * Q := (792, 612).

Definition blank : World :=
  {| calendar_c_firstweekday := 0; canvas := reportlab.new "calendar.pdf" letter_landscape |}.


(** ** Vocabulary of the properties *)

(** The rows [l[0:7], l[7:14], ...], [n] of them. *)
Definition weeks {A} (l : list A) (n : nat) : list (list A) :=
  map (fun k => firstn 7 (skipn (7 * k) l)) (seq 0 n).

(** The drawing parameters that [saveState] and [restoreState] manage. *)
Definition same_params (w w' : World) : Prop :=
  reportlab.gstate (canvas w') = reportlab.gstate (canvas w)
  /\ reportlab.state_stack (canvas w') = reportlab.state_stack (canvas w).

(** A computation that returns, leaving the stack of saved parameters as it
    found it. *)
Definition balanced_at (m : M unit) (w : World) : Prop :=
  exists w', m w = (w', inr tt)
             /\ reportlab.state_stack (canvas w')
                = reportlab.state_stack (canvas w).

Definition returns_balanced (cell_cb : CellCallback) : Prop :=
  forall day cell font ordinals w, balanced_at (cell_cb day cell font ordinals) w.

(** The canvas as a cell or the label finds it: parameters saved, then the
    defaults of the page set. *)
Definition prepared (line_width : Q) (font : Font) (w : World) : World :=
  {| calendar_c_firstweekday := calendar_c_firstweekday w;
     canvas := reportlab.setLineWidth line_width
                 (reportlab.setFont (name font) (size font)
                    (reportlab.saveState (canvas w))) |}.

(** The canvas after [restoreState] has undone what was done since [w]. *)
Definition restored (w w' : World) : World :=
  {| calendar_c_firstweekday := calendar_c_firstweekday w';
     canvas := reportlab.with_gstate (reportlab.gstate (canvas w))
                 (reportlab.with_stack (reportlab.state_stack (canvas w))
                    (canvas w')) |}.

(** A callback that leaves the [calendar] module alone. *)
Definition keeps_calendar (cell_cb : CellCallback) : Prop :=
  forall day cell font ordinals w,
    calendar_c_firstweekday (fst (cell_cb day cell font ordinals w))
    = calendar_c_firstweekday w.

(** A callback that draws the border of a cell and then fails. *)
Definition failing_cb : CellCallback :=
  fun day cell font ordinals =>
    on_canvas (reportlab.rect (x cell) (y cell - height cell)
                              (width cell) (height cell)) ;;
    raise (Raised "cannot draw").

(** A callback that saves the drawing parameters and does not restore
    them. *)
Definition unbalanced_cb : CellCallback :=
  fun day cell font ordinals => on_canvas reportlab.saveState.

(** The part of the page that a cell rectangle stands for: [y] is the top
    edge of a cell ([draw_cell] draws the border from [y - height] up). *)
Definition in_cell (g : Geom) (px py : Q) : Prop :=
  (x g <= px <= x g + width g) /\ (y g - height g <= py <= y g).

Definition strictly_in_cell (g : Geom) (px py : Q) : Prop :=
  (x g < px /\ px < x g + width g) /\ (y g - height g < py /\ py < y g).

(** The part of the page that the target rectangle stands for: [y] is its
    bottom edge. *)
Definition in_rect (r : Geom) (px py : Q) : Prop :=
  (x r <= px <= x r + width r) /\ (y r <= py <= y r + height r).

Definition area (g : Geom) : Q := width g * height g.

Definition Qsum (l : list Q) : Q := fold_right Qplus 0 l.

(** The cell rectangles of a grid of [rows] rows, row by row. *)
Definition cells (rect : Geom) (cellsize : Size) (rows : Z) : list Geom :=
  flat_map (fun row => map (fun col => cell_geom rect cellsize rows row col)
                           (Py.range 0 7))
           (Py.range 0 rows).

(** The day and the rectangle of each call of the callback, in the order
    of the two loops of [add_calendar_page]. *)
Definition visited (cal : list (list Z)) (rect : Geom) (cellsize : Size)
           (rows : Z) : list (Z * Geom) :=
  flat_map (fun '(row, week) =>
              map (fun '(col, day) => (day, cell_geom rect cellsize rows row col))
                  (Py.enumerate week))
           (Py.enumerate cal).


(** ** The command line *)

(** [reportlab.lib.units] and [reportlab.lib.pagesizes]: the constants and
    the function that the script takes from the library. *)
Module pagesizes.

Definition inch : Q := 72.
Definition letter : Q * Q := (8.5 * inch, 11 * inch).
Definition legal : Q * Q := (8.5 * inch, 14 * inch).

(** [landscape(pagesize)]: the longer side first. *)
Definition landscape (pagesize : Q * Q) : Q * Q :=
  let '(a, b) := pagesize in
  if negb (Qle_bool b a) then (b, a) else (a, b).

End pagesizes.

Inductive PaperSize : Type := letter | legal | label_4x6 | label_4x8.

Definition PaperSize_eqb (a b : PaperSize) : bool :=
  match a, b with
  | letter, letter | legal, legal
  | label_4x6, label_4x6 | label_4x8, label_4x8 => true
  | _, _ => false
  end.

Definition PAPER_SIZES : Py.dict PaperSize (Q * Q) :=
  [ (letter, pagesizes.letter);
    (legal, pagesizes.legal);
    (label_4x6, (4 * pagesizes.inch, 6 * pagesizes.inch));
    (label_4x8, (4 * pagesizes.inch, 8 * pagesizes.inch)) ].

(** [datetime._days_in_month] *)
Definition _days_in_month (year month : Z) : Z :=
  if ((month =? 2)%Z && datetime._is_leap year)%bool then 29%Z
  else nth (Z.to_nat month) datetime._DAYS_IN_MONTH 0%Z.

(** An [int] that fits the C [int] (32 bits) of the constructor's
    arguments. *)
Definition fits_c_int (n : Z) : bool :=
  ((- 2 ^ 31 <=? n)%Z && (n <=? 2 ^ 31 - 1)%Z)%bool.

(** [datetime.datetime(year, month, day)]: the arguments are converted to C
    [int]s, which raises [OverflowError] for one that does not fit, and
    then the constructor checks its fields. *)
Definition datetime_datetime (year month day : Z) : Result datetime.t :=
  if negb (fits_c_int year && fits_c_int month && fits_c_int day)
  then inl OverflowError
  else if negb ((datetime.MINYEAR <=? year)%Z && (year <=? datetime.MAXYEAR)%Z)
  then inl ValueError
  else if negb ((1 <=? month)%Z && (month <=? 12)%Z) then inl ValueError
  else if negb ((1 <=? day)%Z && (day <=? _days_in_month year month)%Z)
  then inl ValueError
  else inr (datetime.mk year month).

(** The command [cli] under [__main__], after the options have been
    parsed; [file] is the path as a string. *)
Definition cli (stringWidth : string -> string -> Q -> Q)
           (year month : Z) (file : string) (size : PaperSize)
           (landscape ordinals : bool) (fwd : Z) (fs : Files)
  : (Z * Files) * Result unit :=
  match Py.dict_getitem PaperSize_eqb PAPER_SIZES size with
  | inl e => ((fwd, fs), inl e)
  | inr size_tuple =>
      let size_tuple :=
        if landscape then pagesizes.landscape size_tuple else size_tuple in
      match datetime_datetime year month 1 with
      | inl e => ((fwd, fs), inl e)
      | inr d =>
          generate_pdf stringWidth d file size_tuple ordinals
                       calendar.SUNDAY fwd fs
      end
  end.

(** ** Vocabulary of the page's content *)

(** The canvas with more marks on the page in progress. *)
Definition with_marks (ms : reportlab.Page) (c : reportlab.Canvas)
  : reportlab.Canvas :=
  {| reportlab.filename := reportlab.filename c;
     reportlab.pagesize := reportlab.pagesize c;
     reportlab.gstate := reportlab.gstate c;
     reportlab.state_stack := reportlab.state_stack c;
     reportlab.code := reportlab.code c ++ ms;
     reportlab.pages := reportlab.pages c |}.

(** The outline of a cell rectangle, as [draw_cell] draws the border. *)
Definition outline (g : Geom) : reportlab.Mark :=
  reportlab.rect_mark (x g) (y g - height g) (width g) (height g).

(** A callback that records every call: it outlines the rectangle it is
    given, for padding cells too. *)
Definition outline_cb : CellCallback :=
  fun day cell font ordinals =>
    on_canvas (reportlab.rect (x cell) (y cell - height cell)
                              (width cell) (height cell)).

(** The marks of a cell that holds a date: border, number and, with
    ordinals, suffix. *)
Definition date_marks (stringWidth : string -> string -> Q -> Q)
           (font : Font) (ordinals : bool) (day : Z) (rect : Geom)
  : list reportlab.Mark :=
  [ reportlab.rect_mark (x rect) (y rect - height rect)
                        (width rect) (height rect);
    reportlab.string_mark (x rect + size font * 0.5)
                          (y rect - size font * 1.3) (Py.str day) ]
  ++ (if ordinals
      then [ reportlab.string_mark
               (x rect + size font * 0.5
                + stringWidth (Py.str day) (name font) (size font))
               (y rect - size font * 1.3 + size font * 1.3 * 0.1)
               (Py.dict_get key_eqb ORDINALS (Some day) "th"%string) ]
      else []).

(** The marks of any cell: none for padding. *)
Definition cell_marks (stringWidth : string -> string -> Q -> Q)
           (font : Font) (ordinals : bool) (dc : Z * Geom)
  : list reportlab.Mark :=
  if (fst dc =? 0)%Z then []
  else date_marks stringWidth font ordinals (fst dc) (snd dc).

(** The texts of the strings among some marks, and the number of
    rectangles. *)
Definition texts (ms : list reportlab.Mark) : list string :=
  flat_map (fun m => match m with
                     | reportlab.string_mark _ _ text => [text]
                     | reportlab.rect_mark _ _ _ _ => []
                     end) ms.

Definition count_rects (ms : list reportlab.Mark) : nat :=
  length (filter (fun m => match m with
                           | reportlab.rect_mark _ _ _ _ => true
                           | reportlab.string_mark _ _ _ => false
                           end) ms).

(** The text drawn for a day. *)
Definition day_texts (ordinals : bool) (day : Z) : list string :=
  Py.str day
  :: (if ordinals
      then [Py.dict_get key_eqb ORDINALS (Some day) "th"%string]
      else []).


Local Close Scope Q_scope.
Local Open Scope Z_scope.

(** * Properties *)

(** ** Lists cut into weeks *)

Section Weeks.

Context {A : Type}.

Lemma firstn_plus (a b : nat) (l : list A) :
  firstn (a + b) l = firstn a l ++ firstn b (skipn a l).
Proof.
  revert l; induction a as [|a IH]; intros l; simpl; [reflexivity|].
  destruct l as [|x l]; simpl.
  - now rewrite firstn_nil.
  - now rewrite IH.
Qed.

Lemma concat_weeks (l : list A) (n : nat) :
  concat (weeks l n) = firstn (7 * n) l.
Proof.
  unfold weeks; induction n as [|n IH]; [reflexivity|].
  rewrite seq_S, map_app, concat_app, IH.
  cbn [map concat Nat.add]; rewrite app_nil_r, <- firstn_plus.
  f_equal; lia.
Qed.

Lemma weeks_full (l : list A) (n : nat) :
  (7 * n <= length l)%nat ->
  Forall (fun week => length week = 7%nat) (weeks l n).
Proof.
  intros Hlen; unfold weeks; apply Forall_forall; intros week Hin.
  apply in_map_iff in Hin as [k [<- Hk]]; apply in_seq in Hk.
  rewrite length_firstn, length_skipn; lia.
Qed.

Lemma slices_weeks (l : list A) :
  map (fun i => Py.slice l i (i + 7)) (Py.range3 0 (Py.len l) 7)
  = weeks l (Z.to_nat ((Py.len l + 6) / 7)).
Proof.
  unfold Py.range3, weeks; rewrite map_map.
  replace (Py.len l - 0 + 7 - 1) with (Py.len l + 6) by lia.
  apply map_ext; intros k; unfold Py.slice.
  replace (Z.to_nat (0 + 7 * Z.of_nat k + 7 - (0 + 7 * Z.of_nat k))) with 7%nat by lia.
  replace (Z.to_nat (0 + 7 * Z.of_nat k)) with (7 * k)%nat by lia.
  reflexivity.
Qed.

End Weeks.

(** ** The week grid *)

Lemma weekday_range (year month day : Z) :
  0 <= calendar.weekday year month day <= 6.
Proof.
  unfold calendar.weekday, datetime.date_weekday.
  match goal with |- _ <= ?a mod 7 <= _ => pose proof (Z.mod_pos_bound a 7) end.
  lia.
Qed.

Lemma monthrange_valid (year month : Z) :
  1 <= month <= 12 ->
  exists day1 ndays,
    calendar.monthrange year month = inr (day1, ndays)
    /\ 0 <= day1 <= 6 /\ 28 <= ndays <= 31.
Proof.
  intros Hm; unfold calendar.monthrange.
  replace ((1 <=? month) && (month <=? 12)) with true
    by (symmetry; apply andb_true_iff; split; apply Z.leb_le; lia).
  cbn [negb]; eexists _, _; split; [reflexivity|].
  split; [apply weekday_range|].
  assert (Hcases : month = 1 \/ month = 2 \/ month = 3 \/ month = 4
                   \/ month = 5 \/ month = 6 \/ month = 7 \/ month = 8
                   \/ month = 9 \/ month = 10 \/ month = 11 \/ month = 12) by lia.
  repeat (destruct Hcases as [-> | Hcases]); try subst month;
    destruct (calendar.isleap year); cbv; split; intro; discriminate.
Qed.

Lemma range_seq (n : Z) :
  Py.range 1 (n + 1) = map Z.of_nat (seq 1 (Z.to_nat n)).
Proof.
  unfold Py.range; replace (n + 1 - 1) with n by lia.
  rewrite <- seq_shift, map_map; apply map_ext; intros k; lia.
Qed.

Lemma filter_repeat_zero (n : nat) :
  filter (fun d => negb (d =? 0)) (List.repeat 0 n) = [].
Proof. induction n; simpl; auto. Qed.

Lemma filter_days (n : nat) (start : nat) :
  filter (fun d => negb (d =? 0)) (map Z.of_nat (seq (S start) n))
  = map Z.of_nat (seq (S start) n).
Proof.
  revert start; induction n as [|n IH]; intros start; [reflexivity|].
  cbn [seq map filter].
  replace (Z.of_nat (S start) =? 0) with false by (symmetry; apply Z.eqb_neq; lia).
  cbn [negb]; now rewrite IH.
Qed.

Lemma monthdayscalendar_shape (fw year month : Z) :
  1 <= month <= 12 ->
  exists cal day1 N before after,
    calendar.monthdayscalendar fw year month = inr cal
    /\ calendar.monthrange year month = inr (day1, N)
    /\ before = (day1 - fw mod 7) mod 7
    /\ 0 <= after < 7
    /\ Forall (fun week => length week = 7%nat) cal
    /\ (4 <= length cal <= 6)%nat
    /\ concat cal = List.repeat 0 (Z.to_nat before)
                    ++ map Z.of_nat (seq 1 (Z.to_nat N))
                    ++ List.repeat 0 (Z.to_nat after).
Proof.
  intros Hm.
  destruct (monthrange_valid year month Hm) as (day1 & N & Hmr & Hd & HN).
  unfold calendar.monthdayscalendar, calendar.itermonthdays; rewrite Hmr.
  set (before := (day1 - fw mod 7) mod 7).
  set (after := (fw mod 7 - day1 - N) mod 7).
  set (days := Py.repeat 0 before ++ _ ++ _).
  assert (Hb : 0 <= before < 7) by (apply Z.mod_pos_bound; lia).
  assert (Ha : 0 <= after < 7) by (apply Z.mod_pos_bound; lia).
  assert (Hlen : Py.len days = before + N + after).
  { unfold Py.len, days, Py.repeat, Py.range.
    rewrite !length_app, !repeat_length, length_map, length_seq; lia. }
  assert (Hsum : (before + N + after) mod 7 = 0).
  { subst before after.
    rewrite <- Zplus_mod_idemp_r, Zmod_mod, Zplus_mod_idemp_r.
    rewrite <- Z.add_assoc, <- Zplus_mod_idemp_l, Zmod_mod, Zplus_mod_idemp_l.
    replace (day1 - fw mod 7 + (N + (fw mod 7 - day1 - N))) with 0 by lia.
    reflexivity. }
  apply Z.mod_divide in Hsum as [n Hn]; [|lia].
  exists (map (fun i => Py.slice days i (i + 7)) (Py.range3 0 (Py.len days) 7)).
  exists day1, N, before, after.
  rewrite slices_weeks, Hlen.
  replace ((before + N + after + 6) / 7) with n
    by (apply Z.div_unique with (r := 6); lia).
  assert (Hnat : length days = (7 * Z.to_nat n)%nat) by (unfold Py.len in Hlen; lia).
  repeat split; try lia.
  - apply weeks_full; lia.
  - unfold weeks; rewrite length_map, length_seq; lia.
  - unfold weeks; rewrite length_map, length_seq; lia.
  - rewrite concat_weeks, <- Hnat, firstn_all.
    unfold days, Py.repeat; now rewrite range_seq.
Qed.

Lemma month_grid_run (d : datetime.t) (first_weekday : Z) (w : World) :
  0 <= first_weekday <= 6 ->
  month_grid d first_weekday w
  = ({| calendar_c_firstweekday := first_weekday; canvas := canvas w |},
     calendar.monthdayscalendar first_weekday (datetime.year d) (datetime.month d)).
Proof.
  intros Hfw; unfold month_grid, bind, calendar_setfirstweekday.
  unfold calendar.MONDAY, calendar.SUNDAY.
  replace ((0 <=? first_weekday) && (first_weekday <=? 6)) with true
    by (symmetry; apply andb_true_iff; split; apply Z.leb_le; lia).
  cbn [negb]; unfold calendar_monthcalendar; cbn.
  destruct (calendar.monthdayscalendar _ _ _); reflexivity.
Qed.

Lemma month_grid_shape (d : datetime.t) (first_weekday : Z) (w : World) :
  1 <= datetime.month d <= 12 ->
  0 <= first_weekday <= 6 ->
  exists cal day1 N before after,
    month_grid d first_weekday w
    = ({| calendar_c_firstweekday := first_weekday; canvas := canvas w |}, inr cal)
    /\ calendar.monthrange (datetime.year d) (datetime.month d) = inr (day1, N)
    /\ 28 <= N <= 31
    /\ Forall (fun week => length week = 7%nat) cal
    /\ (4 <= length cal <= 6)%nat
    /\ before = (day1 - first_weekday) mod 7
    /\ 0 <= after < 7
    /\ concat cal = Py.repeat 0 before
                    ++ map Z.of_nat (seq 1 (Z.to_nat N))
                    ++ Py.repeat 0 after
    /\ filter (fun day => negb (day =? 0)) (concat cal)
       = map Z.of_nat (seq 1 (Z.to_nat N)).
Proof.
  intros Hm Hfw.
  destruct (monthdayscalendar_shape first_weekday (datetime.year d)
              (datetime.month d) Hm)
    as (cal & day1 & N & before & after & Hcal & Hmr & Hb & Ha & Hcols & Hrows & Hcat).
  exists cal, day1, N, before, after.
  rewrite month_grid_run, Hcal by assumption.
  destruct (monthrange_valid (datetime.year d) _ Hm) as (day1' & N' & Hmr' & _ & HN).
  rewrite Hmr in Hmr'; injection Hmr' as <- <-.
  rewrite (Z.mod_small first_weekday 7) in Hb by lia.
  repeat split; try assumption; try lia.
  rewrite Hcat, !filter_app, !filter_repeat_zero, filter_days.
  now rewrite app_nil_r.
Qed.

(** C1.  For a month in 1..12 and a first weekday in 0..6, the week grid
    that [add_calendar_page] computes has rows of exactly 7 columns, between
    4 and 6 of them, and read row by row it is: [before] zeros, then the
    days 1, 2, ..., N where N is the number of days of the month, then
    [after] zeros; [before] is the distance from the first weekday to the
    weekday of the 1st, and both paddings are shorter than a week.  So the
    non-zero entries are exactly 1..N in order, each once. *)
Theorem month_grid_rows_and_days (d : datetime.t) (first_weekday : Z) (w : World) :
  1 <= datetime.month d <= 12 ->
  0 <= first_weekday <= 6 ->
  exists cal day1 N before after,
    month_grid d first_weekday w
    = ({| calendar_c_firstweekday := first_weekday; canvas := canvas w |}, inr cal)
    /\ calendar.monthrange (datetime.year d) (datetime.month d) = inr (day1, N)
    /\ 28 <= N <= 31
    /\ Forall (fun week => length week = 7%nat) cal
    /\ (4 <= length cal <= 6)%nat
    /\ before = (day1 - first_weekday) mod 7
    /\ 0 <= after < 7
    /\ concat cal = Py.repeat 0 before
                    ++ map Z.of_nat (seq 1 (Z.to_nat N))
                    ++ Py.repeat 0 after
    /\ filter (fun day => negb (day =? 0)) (concat cal)
       = map Z.of_nat (seq 1 (Z.to_nat N)).
Proof. exact (month_grid_shape d first_weekday w). Qed.

(** January 2024 with the weeks starting on Sunday. *)
Lemma month_grid_rows_and_days_witness :
  exists cal day1 N before after,
    month_grid (datetime.mk 2024 1) 6 blank
    = ({| calendar_c_firstweekday := 6; canvas := canvas blank |}, inr cal)
    /\ calendar.monthrange 2024 1 = inr (day1, N)
    /\ 28 <= N <= 31
    /\ Forall (fun week => length week = 7%nat) cal
    /\ (4 <= length cal <= 6)%nat
    /\ before = (day1 - 6) mod 7
    /\ 0 <= after < 7
    /\ concat cal = Py.repeat 0 before
                    ++ map Z.of_nat (seq 1 (Z.to_nat N))
                    ++ Py.repeat 0 after
    /\ filter (fun day => negb (day =? 0)) (concat cal)
       = map Z.of_nat (seq 1 (Z.to_nat N)).
Proof.
  apply (month_grid_rows_and_days (datetime.mk 2024 1) 6 blank); simpl; lia.
Defined.

(** The grids of a few months, as a wall calendar shows them. *)
Example january_2024_sunday_first :
  calendar.monthdayscalendar calendar.SUNDAY 2024 1
  = inr [[0; 1; 2; 3; 4; 5; 6]; [7; 8; 9; 10; 11; 12; 13];
         [14; 15; 16; 17; 18; 19; 20]; [21; 22; 23; 24; 25; 26; 27];
         [28; 29; 30; 31; 0; 0; 0]].
Proof. reflexivity. Qed.

Example february_2015_sunday_first :
  calendar.monthdayscalendar calendar.SUNDAY 2015 2
  = inr [[1; 2; 3; 4; 5; 6; 7]; [8; 9; 10; 11; 12; 13; 14];
         [15; 16; 17; 18; 19; 20; 21]; [22; 23; 24; 25; 26; 27; 28]].
Proof. reflexivity. Qed.

Example november_2026_monday_first :
  calendar.monthdayscalendar calendar.MONDAY 2026 11
  = inr [[0; 0; 0; 0; 0; 0; 1]; [2; 3; 4; 5; 6; 7; 8];
         [9; 10; 11; 12; 13; 14; 15]; [16; 17; 18; 19; 20; 21; 22];
         [23; 24; 25; 26; 27; 28; 29]; [30; 0; 0; 0; 0; 0; 0]].
Proof. reflexivity. Qed.

Example february_lengths :
  map (fun year => calendar.monthrange year 2) [1900; 2000; 2023; 2024]
  = [inr (3, 28); inr (1, 29); inr (2, 28); inr (3, 29)].
Proof. reflexivity. Qed.

Example month_13_is_refused :
  calendar.monthdayscalendar calendar.SUNDAY 2024 13 = inl (IllegalMonthError 13).
Proof. reflexivity. Qed.

(** ** Cells of the grid and the slot of the label *)

Lemma concat_nth_error (cal : list (list Z)) :
  Forall (fun week => length week = 7%nat) cal ->
  forall r c week,
    nth_error cal r = Some week -> (c < 7)%nat ->
    nth_error week c = nth_error (concat cal) (7 * r + c).
Proof.
  induction 1 as [|week0 cal Hweek0 Hcal IH]; intros r c week Hr Hc.
  - destruct r; discriminate.
  - destruct r as [|r]; cbn [nth_error concat] in *.
    + injection Hr as ->. rewrite nth_error_app1 by lia. f_equal; lia.
    + rewrite nth_error_app2 by lia. rewrite (IH r c week Hr Hc). f_equal; lia.
Qed.

Lemma grid_cell_concat (cal : list (list Z)) (row col : Z) :
  Forall (fun week => length week = 7%nat) cal ->
  0 <= row < Py.len cal -> 0 <= col < 7 ->
  exists day,
    grid_cell cal row col = inr day
    /\ nth_error (concat cal) (Z.to_nat (7 * row + col)) = Some day.
Proof.
  intros Hcols Hrow Hcol; unfold grid_cell, Py.getitem, Py.len in *.
  destruct (nth_error cal (Z.to_nat row)) as [week|] eqn:Hweek;
    [|apply nth_error_None in Hweek; lia].
  assert (Hlen : length week = 7%nat).
  { rewrite Forall_forall in Hcols; apply Hcols; eapply nth_error_In; eauto. }
  destruct (nth_error week (Z.to_nat col)) as [day|] eqn:Hday;
    [|apply nth_error_None in Hday; lia].
  exists day; split; [reflexivity|].
  rewrite <- Hday, (concat_nth_error cal Hcols _ (Z.to_nat col) _ Hweek) by lia.
  f_equal; lia.
Qed.

Lemma nth_error_days (N k : nat) :
  (k < N)%nat -> nth_error (map Z.of_nat (seq 1 N)) k = Some (Z.of_nat (S k)).
Proof.
  intros Hk; rewrite nth_error_map, nth_error_seq.
  destruct (Nat.ltb_spec k N); [reflexivity | lia].
Qed.

(** The corner cells of a month's grid. *)
Lemma month_grid_corners (d : datetime.t) (first_weekday : Z) (w : World) :
  1 <= datetime.month d <= 12 ->
  0 <= first_weekday <= 6 ->
  exists cal day1 N,
    month_grid d first_weekday w
    = ({| calendar_c_firstweekday := first_weekday; canvas := canvas w |}, inr cal)
    /\ calendar.monthrange (datetime.year d) (datetime.month d) = inr (day1, N)
    /\ 0 <= day1 <= 6
    /\ 4 <= Py.len cal <= 6
    /\ grid_cell cal 0 0 = inr (if day1 =? first_weekday then 1 else 0)
    /\ (day1 = first_weekday -> N = 7 * Py.len cal ->
        grid_cell cal (Py.len cal - 1) 6 = inr N).
Proof.
  intros Hm Hfw.
  destruct (month_grid_shape d first_weekday w Hm Hfw)
    as (cal & day1 & N & before & after
        & Hrun & Hmr & HN & Hcols & Hrows & Hb & Ha & Hcat & _).
  destruct (monthrange_valid (datetime.year d) _ Hm) as (day1' & N' & Hmr' & Hd & _).
  rewrite Hmr in Hmr'; injection Hmr' as <- <-.
  exists cal, day1, N; repeat split; try assumption; try (unfold Py.len; lia).
  - destruct (grid_cell_concat cal 0 0 Hcols) as (day & -> & Hday);
      try (unfold Py.len; lia).
    f_equal; rewrite Hcat in Hday; change (Z.to_nat (7 * 0 + 0)) with 0%nat in Hday.
    destruct (Z.eqb_spec day1 first_weekday) as [-> | Hne].
    + rewrite Z.sub_diag in Hb; change (0 mod 7) with 0 in Hb; subst before.
      cbn [Py.repeat Z.to_nat List.repeat app] in Hday.
      rewrite nth_error_app1, nth_error_days in Hday
        by (rewrite ?length_map, ?length_seq; lia).
      now injection Hday as <-.
    + assert (0 < before < 7).
      { pose proof (Z.mod_pos_bound (day1 - first_weekday) 7 ltac:(lia)).
        pose proof (Z.div_mod (day1 - first_weekday) 7 ltac:(lia)). lia. }
      unfold Py.repeat in Hday; rewrite nth_error_app1 in Hday
        by (rewrite repeat_length; lia).
      apply nth_error_In, repeat_spec in Hday; now subst day.
  - intros -> Hfull.
    destruct (grid_cell_concat cal (Py.len cal - 1) 6 Hcols) as (day & -> & Hday);
      try (unfold Py.len; lia).
    unfold Py.len in *; f_equal; rewrite Hcat in Hday.
    rewrite Z.sub_diag in Hb; change (0 mod 7) with 0 in Hb; subst before.
    cbn [Py.repeat Z.to_nat List.repeat app] in Hday.
    rewrite nth_error_app1, nth_error_days in Hday
      by (rewrite ?length_map, ?length_seq; lia).
    match type of Hday with Some ?a = _ => assert (a = day) by congruence end.
    lia.
Qed.

(** ** Running computations *)

Lemma bind_inr {A B} (m : M A) (k : A -> M B) (w w' : World) (a : A) :
  m w = (w', inr a) -> bind m k w = k a w'.
Proof. intros H; unfold bind; now rewrite H. Qed.

Lemma bind_inl {A B} (m : M A) (k : A -> M B) (w w' : World) (e : Exn) :
  m w = (w', inl e) -> bind m k w = (w', inl e).
Proof. intros H; unfold bind; now rewrite H. Qed.

Lemma save_state_returns {A} (body : M A) (w w2 : World) (r : A) :
  body {| calendar_c_firstweekday := calendar_c_firstweekday w;
          canvas := reportlab.saveState (canvas w) |} = (w2, inr r) ->
  reportlab.state_stack (canvas w2)
  = reportlab.gstate (canvas w) :: reportlab.state_stack (canvas w) ->
  save_state body w = (restored w w2, inr r).
Proof.
  intros Hbody Hstack; unfold save_state.
  rewrite (bind_inr _ _ w _ tt eq_refl), (bind_inr _ _ _ _ _ Hbody).
  unfold bind, on_canvas_try, reportlab.restoreState; rewrite Hstack.
  unfold restored, ret, reportlab.with_gstate, reportlab.with_stack; cbn.
  reflexivity.
Qed.

Lemma save_state_raises {A} (body : M A) (w w2 : World) (e : Exn) :
  body {| calendar_c_firstweekday := calendar_c_firstweekday w;
          canvas := reportlab.saveState (canvas w) |} = (w2, inl e) ->
  save_state body w = (w2, inl e).
Proof.
  intros Hbody; unfold save_state.
  now rewrite (bind_inr _ _ w _ tt eq_refl), (bind_inl _ _ _ _ _ Hbody).
Qed.

Lemma same_params_refl (w : World) : same_params w w.
Proof. split; reflexivity. Qed.

Lemma same_params_trans (w1 w2 w3 : World) :
  same_params w1 w2 -> same_params w2 w3 -> same_params w1 w3.
Proof. intros [? ?] [? ?]; split; congruence. Qed.

Lemma same_params_restored (w w2 : World) : same_params w (restored w w2).
Proof. split; reflexivity. Qed.

Lemma for_each_invariant {A} (R : World -> World -> Prop)
      (l : list A) (body : A -> M unit) :
  (forall w, R w w) ->
  (forall w1 w2 w3, R w1 w2 -> R w2 w3 -> R w1 w3) ->
  (forall x w, In x l -> exists w', body x w = (w', inr tt) /\ R w w') ->
  forall w, exists w', for_each l body w = (w', inr tt) /\ R w w'.
Proof.
  intros Hrefl Htrans; induction l as [|x l IH]; intros Hbody w; cbn [for_each].
  - exists w; split; [reflexivity | apply Hrefl].
  - destruct (Hbody x w (or_introl eq_refl)) as (w1 & Hx & Hp1).
    destruct (IH (fun y v Hy => Hbody y v (or_intror Hy)) w1) as (w2 & Hl & Hp2).
    exists w2; split; [|eapply Htrans; eauto].
    now rewrite (bind_inr _ _ _ _ _ Hx).
Qed.

(** One cell: when the callback returns with the stack balanced, the cell
    is the callback's drawing between a save and a restore. *)
Lemma render_cell_returns (cell_cb : CellCallback) (line_width : Q)
      (font : Font) (ordinals : bool) (day : Z) (cell : Geom) (w w2 : World) :
  cell_cb day cell font ordinals (prepared line_width font w) = (w2, inr tt) ->
  reportlab.state_stack (canvas w2)
  = reportlab.state_stack (canvas (prepared line_width font w)) ->
  render_cell cell_cb line_width font ordinals day cell w
  = (restored w w2, inr tt).
Proof.
  intros Hcb Hstack; unfold render_cell.
  apply save_state_returns; [|rewrite Hstack; reflexivity].
  rewrite (bind_inr _ _ _ _ tt eq_refl), (bind_inr _ _ _ _ tt eq_refl).
  exact Hcb.
Qed.

(** One cell: when the callback raises, nothing is restored. *)
Lemma render_cell_raises (cell_cb : CellCallback) (line_width : Q)
      (font : Font) (ordinals : bool) (day : Z) (cell : Geom) (w w2 : World)
      (e : Exn) :
  cell_cb day cell font ordinals (prepared line_width font w) = (w2, inl e) ->
  render_cell cell_cb line_width font ordinals day cell w = (w2, inl e).
Proof.
  intros Hcb; unfold render_cell; apply save_state_raises.
  rewrite (bind_inr _ _ _ _ tt eq_refl), (bind_inr _ _ _ _ tt eq_refl).
  exact Hcb.
Qed.

(** The two loops, for a callback that returns: whatever each cell keeps,
    the loops keep. *)
Lemma cells_invariant (R : World -> World -> Prop) (cell_cb : CellCallback)
      (cal : list (list Z)) (line_width : Q) (font : Font) (ordinals : bool)
      (cell_of : Z -> Z -> Geom) (w : World) :
  (forall w, R w w) ->
  (forall w1 w2 w3, R w1 w2 -> R w2 w3 -> R w1 w3) ->
  (forall day cell w,
      exists w', render_cell cell_cb line_width font ordinals day cell w
                 = (w', inr tt) /\ R w w') ->
  exists w',
    for_each (Py.enumerate cal) (fun '(row, week) =>
      for_each (Py.enumerate week) (fun '(col, day) =>
        render_cell cell_cb line_width font ordinals day (cell_of row col))) w
    = (w', inr tt)
    /\ R w w'.
Proof.
  intros Hrefl Htrans Hcell.
  apply for_each_invariant; try assumption; intros [row week] w0 _.
  apply for_each_invariant; try assumption; intros [col day] w1 _.
  apply Hcell.
Qed.

Lemma render_cell_balanced (cell_cb : CellCallback) (line_width : Q)
      (font : Font) (ordinals : bool) (day : Z) (cell : Geom) (w : World) :
  returns_balanced cell_cb ->
  exists w', render_cell cell_cb line_width font ordinals day cell w
             = (w', inr tt) /\ same_params w w'.
Proof.
  intros Hcb.
  destruct (Hcb day cell font ordinals (prepared line_width font w))
    as (w2 & Hrun & Hstack).
  exists (restored w w2); split; [|apply same_params_restored].
  now apply render_cell_returns.
Qed.

Lemma cells_return (cell_cb : CellCallback) (cal : list (list Z))
      (line_width : Q) (font : Font) (ordinals : bool)
      (cell_of : Z -> Z -> Geom) (w : World) :
  returns_balanced cell_cb ->
  exists w',
    for_each (Py.enumerate cal) (fun '(row, week) =>
      for_each (Py.enumerate week) (fun '(col, day) =>
        render_cell cell_cb line_width font ordinals day (cell_of row col))) w
    = (w', inr tt)
    /\ same_params w w'.
Proof.
  intros Hcb; apply cells_invariant.
  - apply same_params_refl.
  - apply same_params_trans.
  - intros; now apply render_cell_balanced.
Qed.

Lemma month_abbr_valid (month : Z) :
  1 <= month <= 12 ->
  exists abbr, Py.getitem calendar.month_abbr month = inr abbr.
Proof.
  intros Hm; unfold Py.getitem.
  destruct (nth_error calendar.month_abbr (Z.to_nat month)) as [abbr|] eqn:E.
  - now exists abbr.
  - apply nth_error_None in E; cbn in E; lia.
Qed.

Lemma cellsize_valid (rect : Geom) (rows : Z) :
  rows <> 0 ->
  cellsize rect rows
  = inr (mkSize (width rect / 7) (height rect / inject_Z rows)).
Proof.
  intros Hrows; unfold cellsize, Py.truediv.
  replace (Qeq_bool (inject_Z rows) 0) with false; [reflexivity|].
  symmetry; unfold Qeq_bool; cbn; apply Z.eqb_neq; lia.
Qed.

(** The mark that [draw_month_label] leaves for a label in [cell]. *)
Lemma render_label_returns (d : datetime.t) (line_width : Q) (font : Font)
      (cal : list (list Z)) (rect : Geom) (cellsize : Size) (rows : Z)
      (row col : Z) (abbr : string) (w : World) :
  label_slot cal rows = inr (row, col) ->
  Py.getitem calendar.month_abbr (datetime.month d) = inr abbr ->
  let cell := cell_geom rect cellsize rows row col in
  let mark := reportlab.string_mark
                (x cell + size font * 0.5)%Q (y cell - size font * 1.3)%Q
                (abbr ++ " " ++ Py.str (datetime.year d)) in
  render_label d line_width font cal rect cellsize rows w
  = (restored w {| calendar_c_firstweekday := calendar_c_firstweekday w;
                   canvas := reportlab.draw mark
                               (canvas (prepared line_width font w)) |},
     inr tt).
Proof.
  intros Hslot Habbr cell mark; unfold render_label.
  apply save_state_returns; [|reflexivity].
  rewrite (bind_inr _ _ _ _ tt eq_refl), (bind_inr _ _ _ _ tt eq_refl).
  unfold lift at 1; rewrite (bind_inr _ _ _ _ (row, col)) by (now rewrite Hslot).
  unfold draw_month_label, lift.
  rewrite (bind_inr _ _ _ _ abbr) by (now rewrite Habbr).
  reflexivity.
Qed.

(** The whole page, for a callback that returns: the loops are run from
    the world in which the first weekday has been set, the label is drawn,
    and the page is closed. *)
Lemma add_calendar_page_run (cell_cb : CellCallback) (rect : Geom)
      (d : datetime.t) (ordinals : bool) (first_weekday : Z) (w : World) :
  returns_balanced cell_cb ->
  1 <= datetime.month d <= 12 ->
  0 <= first_weekday <= 6 ->
  exists cal day1 N abbr w1,
    month_grid d first_weekday w
    = ({| calendar_c_firstweekday := first_weekday; canvas := canvas w |}, inr cal)
    /\ calendar.monthrange (datetime.year d) (datetime.month d) = inr (day1, N)
    /\ Py.getitem calendar.month_abbr (datetime.month d) = inr abbr
    /\ grid_cell cal 0 0 = inr (if day1 =? first_weekday then 1 else 0)
    /\ let rows := Py.len cal in
       let cs := mkSize (width (inset rect) / 7)
                        (height (inset rect) / inject_Z rows) in
       let slot := if day1 =? first_weekday then (rows - 1, 6) else (0, 0) in
       let cell := cell_geom (inset rect) cs rows (fst slot) (snd slot) in
       let mark := reportlab.string_mark
                     (x cell + size (font rect) * 0.5)%Q
                     (y cell - size (font rect) * 1.3)%Q
                     (abbr ++ " " ++ Py.str (datetime.year d)) in
       cellsize (inset rect) rows = inr cs
       /\ label_slot cal rows = inr slot
       /\ for_each (Py.enumerate cal) (fun '(row, week) =>
            for_each (Py.enumerate week) (fun '(col, day) =>
              render_cell cell_cb (line_width rect) (font rect) ordinals day
                          (cell_geom (inset rect) cs rows row col)))
            {| calendar_c_firstweekday := first_weekday; canvas := canvas w |}
          = (w1, inr tt)
       /\ same_params {| calendar_c_firstweekday := first_weekday;
                         canvas := canvas w |} w1
       /\ add_calendar_page rect d cell_cb ordinals first_weekday w
          = ({| calendar_c_firstweekday := calendar_c_firstweekday w1;
                canvas :=
                  reportlab.showPage
                    (reportlab.with_gstate (reportlab.gstate (canvas w1))
                       (reportlab.with_stack (reportlab.state_stack (canvas w1))
                          (reportlab.draw mark
                             (canvas (prepared (line_width rect) (font rect) w1))))) |},
             inr tt).
Proof.
  intros Hcb Hm Hfw.
  destruct (month_grid_corners d first_weekday w Hm Hfw)
    as (cal & day1 & N & Hgrid & Hmr & Hd & Hrows & Htop & _).
  destruct (month_abbr_valid _ Hm) as (abbr & Habbr).
  set (rows := Py.len cal) in *.
  set (cs := mkSize (width (inset rect) / 7) (height (inset rect) / inject_Z rows)).
  set (slot := if day1 =? first_weekday then (rows - 1, 6) else (0, 0)).
  assert (Hcs : cellsize (inset rect) rows = inr cs) by (apply cellsize_valid; lia).
  assert (Hslot : label_slot cal rows = inr slot).
  { unfold label_slot, slot; rewrite Htop.
    destruct (day1 =? first_weekday); reflexivity. }
  destruct (cells_return cell_cb cal (line_width rect) (font rect) ordinals
              (cell_geom (inset rect) cs rows)
              {| calendar_c_firstweekday := first_weekday; canvas := canvas w |} Hcb)
    as (w1 & Hcells & Hparams).
  exists cal, day1, N, abbr, w1; cbv zeta; fold rows cs slot.
  repeat split; try assumption; try apply Hparams.
  pose proof (fun row col H =>
                render_label_returns d (line_width rect) (font rect) cal
                  (inset rect) cs rows row col abbr w1 H Habbr) as Hlabel.
  cbv zeta in Hlabel.
  destruct slot as [row col]; specialize (Hlabel row col Hslot).
  unfold add_calendar_page.
  rewrite (bind_inr _ _ _ _ _ Hgrid).
  fold rows; unfold lift at 1; rewrite (bind_inr _ _ _ _ cs) by (now rewrite Hcs).
  rewrite (bind_inr _ _ _ _ _ Hcells), (bind_inr _ _ _ _ _ Hlabel).
  reflexivity.
Qed.

(** In particular the last mark of the page that [showPage] closes is the
    label. *)
Lemma add_calendar_page_returns (cell_cb : CellCallback) (rect : Geom)
      (d : datetime.t) (ordinals : bool) (first_weekday : Z) (w : World) :
  returns_balanced cell_cb ->
  1 <= datetime.month d <= 12 ->
  0 <= first_weekday <= 6 ->
  exists cal day1 N abbr w1 wf,
    month_grid d first_weekday w
    = ({| calendar_c_firstweekday := first_weekday; canvas := canvas w |}, inr cal)
    /\ calendar.monthrange (datetime.year d) (datetime.month d) = inr (day1, N)
    /\ Py.getitem calendar.month_abbr (datetime.month d) = inr abbr
    /\ grid_cell cal 0 0 = inr (if day1 =? first_weekday then 1 else 0)
    /\ let rows := Py.len cal in
       let cs := mkSize (width (inset rect) / 7)
                        (height (inset rect) / inject_Z rows) in
       let slot := if day1 =? first_weekday then (rows - 1, 6) else (0, 0) in
       let cell := cell_geom (inset rect) cs rows (fst slot) (snd slot) in
       let mark := reportlab.string_mark
                     (x cell + size (font rect) * 0.5)%Q
                     (y cell - size (font rect) * 1.3)%Q
                     (abbr ++ " " ++ Py.str (datetime.year d)) in
       cellsize (inset rect) rows = inr cs
       /\ label_slot cal rows = inr slot
       /\ add_calendar_page rect d cell_cb ordinals first_weekday w = (wf, inr tt)
       /\ reportlab.pages (canvas wf)
          = reportlab.pages (canvas w1)
            ++ [reportlab.code (canvas w1)
                ++ [(reportlab.mkGState "Helvetica" (size (font rect))
                                        (line_width rect), mark)]].
Proof.
  intros Hcb Hm Hfw.
  destruct (add_calendar_page_run cell_cb rect d ordinals first_weekday w Hcb Hm Hfw)
    as (cal & day1 & N & abbr & w1 & Hgrid & Hmr & Habbr & Htop & H).
  cbv zeta in H; destruct H as (Hcs & Hslot & _ & _ & Hrun).
  eexists cal, day1, N, abbr, w1, _; cbv zeta.
  repeat split; try eassumption.
  reflexivity.
Qed.

(** ** The cell renderer *)

Lemma int_str (n : Z) : Py.int (Py.str n) = Some n.
Proof.
  unfold Py.int, Py.str.
  rewrite NilZero.isi.
  - cbn [option_map]; f_equal; apply DecimalZ.of_to.
  - intros H; pose proof (DecimalZ.of_to n) as E; rewrite H in E.
    cbn in E; subst n; discriminate H.
  - intros H; pose proof (DecimalZ.of_to n) as E; rewrite H in E.
    cbn in E; subst n; discriminate H.
Qed.

(** What [draw_cell] does for a cell that holds a date. *)
Lemma draw_cell_date (stringWidth : string -> string -> Q -> Q)
      (day : Z) (rect : Geom) (font : Font) (ordinals : bool) (w : World) :
  day <> 0 ->
  let text_x := (x rect + size font * 0.5)%Q in
  let text_y := (y rect - size font * 1.3)%Q in
  let border := reportlab.rect_mark (x rect) (y rect - height rect)%Q
                                    (width rect) (height rect) in
  let number := reportlab.string_mark text_x text_y (Py.str day) in
  let suffix := reportlab.string_mark
                  (text_x + stringWidth (Py.str day) (name font) (size font))%Q
                  (text_y + size font * 1.3 * 0.1)%Q
                  (Py.dict_get key_eqb ORDINALS (Some day) "th"%string) in
  draw_cell stringWidth day rect font ordinals w
  = ({| calendar_c_firstweekday := calendar_c_firstweekday w;
        canvas :=
          (if ordinals then reportlab.draw suffix else fun c => c)
            (reportlab.draw number (reportlab.draw border (canvas w))) |},
     inr tt).
Proof.
  intros Hday; cbv zeta; unfold draw_cell, Py.not_int.
  replace (day =? 0) with false by (symmetry; now apply Z.eqb_neq).
  rewrite (bind_inr _ _ _ _ tt eq_refl), (bind_inr _ _ _ _ tt eq_refl).
  destruct ordinals; [|reflexivity].
  unfold lift at 1; rewrite (bind_inr _ _ _ _ day) by (now rewrite int_str).
  reflexivity.
Qed.

Lemma draw_cell_empty (stringWidth : string -> string -> Q -> Q)
      (rect : Geom) (font : Font) (ordinals : bool) (w : World) :
  draw_cell stringWidth 0 rect font ordinals w = (w, inr tt).
Proof. reflexivity. Qed.

Lemma draw_cell_balanced (stringWidth : string -> string -> Q -> Q) :
  returns_balanced (draw_cell stringWidth).
Proof.
  intros day cell font ordinals w; unfold balanced_at.
  destruct (Z.eq_dec day 0) as [-> | Hday].
  - exists w; split; [apply draw_cell_empty | reflexivity].
  - eexists; split; [now apply draw_cell_date|].
    destruct ordinals; reflexivity.
Qed.

(** C5.  With ordinals enabled, for a day from 1 to 31 [draw_cell] draws
    the border, the day number, and then the suffix found for exactly that
    day in the ordinal table, or the default "th" when the day has no entry
    there.  The suffix is put to the right of the number by the measured
    width of the number's string and raised by 0.1 times the margin height
    (1.3 times the font size).  The table gives 1 st, 2 nd, 3 rd, 4 th,
    11 th, 21 st, 22 nd, 23 rd, 31 st, and "th" for every day that is not
    one of 1, 2, 3, 21, 22, 23, 31. *)
Theorem draw_cell_ordinal_suffix (stringWidth : string -> string -> Q -> Q)
        (day : Z) (rect : Geom) (font : Font) (w : World) :
  1 <= day <= 31 ->
  let suffix_of := fun day => Py.dict_get key_eqb ORDINALS (Some day) "th"%string in
  let margin_width := (size font * 0.5)%Q in
  let margin_height := (size font * 1.3)%Q in
  let text_x := (x rect + margin_width)%Q in
  let text_y := (y rect - margin_height)%Q in
  let number_width := stringWidth (Py.str day) (name font) (size font) in
  draw_cell stringWidth day rect font true w
  = ({| calendar_c_firstweekday := calendar_c_firstweekday w;
        canvas :=
          reportlab.drawString (text_x + number_width)%Q
                               (text_y + margin_height * 0.1)%Q (suffix_of day)
            (reportlab.drawString text_x text_y (Py.str day)
               (reportlab.rect (x rect) (y rect - height rect)%Q
                               (width rect) (height rect) (canvas w))) |},
     inr tt)
  /\ suffix_of day
     = match Py.dict_find key_eqb ORDINALS (Some day) with
       | Some s => s
       | None => "th"%string
       end
  /\ Py.dict_getitem key_eqb ORDINALS None = inr "th"%string
  /\ map suffix_of [1; 2; 3; 4; 11; 21; 22; 23; 31]
     = ["st"; "nd"; "rd"; "th"; "th"; "st"; "nd"; "rd"; "st"]%string
  /\ (~ In day [1; 2; 3; 21; 22; 23; 31] -> suffix_of day = "th"%string).
Proof.
  intros Hday; cbv zeta; repeat split.
  - rewrite draw_cell_date by lia; reflexivity.
  - intros Hnot; unfold Py.dict_get, ORDINALS; cbn [Py.dict_find key_eqb].
    repeat match goal with
           | |- context [day =? ?k] =>
               destruct (Z.eqb_spec k day) as [<- | _];
               [exfalso; apply Hnot; cbn; tauto | rewrite (Z.eqb_sym day k)]
           | |- context [?k =? day] =>
               destruct (Z.eqb_spec k day) as [<- | _];
               [exfalso; apply Hnot; cbn; tauto | ]
           end.
    reflexivity.
Qed.

(** The 22nd, in the first cell of a 700 by 700 page. *)
Lemma draw_cell_ordinal_suffix_witness :
  exists c,
    draw_cell digits_width 22 (mkGeom 0 700 100 100) (mkFont "Helvetica" 20) true blank
    = (c, inr tt)
    /\ Py.dict_get key_eqb ORDINALS (Some 22) "th"%string = "nd"%string.
Proof.
  pose proof (draw_cell_ordinal_suffix digits_width 22 (mkGeom 0 700 100 100)
                (mkFont "Helvetica" 20) blank ltac:(lia)) as H.
  cbv zeta in H; destruct H as (Hrun & _).
  eexists; split; [exact Hrun | reflexivity].
Defined.

(** C6.  A call of [draw_cell] with day 0 returns at once: whatever the cell
    rectangle, the font and the ordinals flag, the canvas (marks on the
    page, drawing parameters, saved parameters, finished pages) and the
    rest of the world are exactly as before, so no border, number or suffix
    is drawn. *)
Theorem draw_cell_zero_draws_nothing (stringWidth : string -> string -> Q -> Q)
        (rect : Geom) (font : Font) (ordinals : bool) (w : World) :
  draw_cell stringWidth 0 rect font ordinals w = (w, inr tt)
  /\ reportlab.code (canvas (fst (draw_cell stringWidth 0 rect font ordinals w)))
     = reportlab.code (canvas w).
Proof. split; reflexivity. Qed.

(** ** The label *)

(** C3.  For a month in 1..12, a first weekday in 0..6 and a callback that
    returns, [add_calendar_page] completes and the last mark on the page it
    closes is the label, drawn (with the margins of [draw_month_label]) in
    the cell slot chosen from the grid: the top-left cell of the grid holds
    day 1 exactly when the 1st falls on the first weekday, and then the slot
    is the bottom-right one (row [rows - 1], column 6); otherwise the
    top-left cell is padding and the slot is the top-left one (row 0,
    column 0).  January 2024 with Sunday first starts on a Monday and gets a
    top-left label; February 2015 with Sunday first starts on a Sunday and
    gets a bottom-right label. *)
Theorem label_placement (cell_cb : CellCallback) (rect : Geom)
        (d : datetime.t) (ordinals : bool) (first_weekday : Z) (w : World) :
  returns_balanced cell_cb ->
  1 <= datetime.month d <= 12 ->
  0 <= first_weekday <= 6 ->
  (exists cal day1 N abbr w1 wf,
    month_grid d first_weekday w
    = ({| calendar_c_firstweekday := first_weekday; canvas := canvas w |}, inr cal)
    /\ calendar.monthrange (datetime.year d) (datetime.month d) = inr (day1, N)
    /\ Py.getitem calendar.month_abbr (datetime.month d) = inr abbr
    /\ grid_cell cal 0 0 = inr (if day1 =? first_weekday then 1 else 0)
    /\ let rows := Py.len cal in
       let cs := mkSize (width (inset rect) / 7)
                        (height (inset rect) / inject_Z rows) in
       let slot := if day1 =? first_weekday then (rows - 1, 6) else (0, 0) in
       let cell := cell_geom (inset rect) cs rows (fst slot) (snd slot) in
       let mark := reportlab.string_mark
                     (x cell + size (font rect) * 0.5)%Q
                     (y cell - size (font rect) * 1.3)%Q
                     (abbr ++ " " ++ Py.str (datetime.year d)) in
       cellsize (inset rect) rows = inr cs
       /\ label_slot cal rows = inr slot
       /\ add_calendar_page rect d cell_cb ordinals first_weekday w = (wf, inr tt)
       /\ reportlab.pages (canvas wf)
          = reportlab.pages (canvas w1)
            ++ [reportlab.code (canvas w1)
                ++ [(reportlab.mkGState "Helvetica" (size (font rect))
                                        (line_width rect), mark)]])
  /\ (calendar.weekday 2024 1 1 = calendar.MONDAY
      /\ exists cal, calendar.monthdayscalendar calendar.SUNDAY 2024 1 = inr cal
                     /\ label_slot cal (Py.len cal) = inr (0, 0))
  /\ (calendar.weekday 2015 2 1 = calendar.SUNDAY
      /\ exists cal, calendar.monthdayscalendar calendar.SUNDAY 2015 2 = inr cal
                     /\ label_slot cal (Py.len cal) = inr (Py.len cal - 1, 6)).
Proof.
  intros Hcb Hm Hfw; split; [|split].
  - exact (add_calendar_page_returns cell_cb rect d ordinals first_weekday w Hcb Hm Hfw).
  - split; [reflexivity|]; eexists; split; [vm_compute; reflexivity|reflexivity].
  - split; [reflexivity|]; eexists; split; [vm_compute; reflexivity|reflexivity].
Qed.

(** February 2015 with Sunday first, drawn by [draw_cell] on a 700 by 700
    page. *)
Lemma label_placement_witness :
  exists wf,
    add_calendar_page (mkGeom 0 0 700 700) (datetime.mk 2015 2)
                      (draw_cell digits_width) true 6 blank
    = (wf, inr tt).
Proof.
  destruct (label_placement (draw_cell digits_width) (mkGeom 0 0 700 700)
              (datetime.mk 2015 2) true 6 blank
              (draw_cell_balanced digits_width)
              ltac:(simpl; lia) ltac:(lia))
    as [(cal & day1 & N & abbr & w1 & wf & _ & _ & _ & _ & _ & _ & Hrun & _) _].
  exists wf; exact Hrun.
Defined.



(** ** Saving and restoring the drawing parameters *)

(** C7, as stated, fails: a callback that raises while drawing the first
    cell of February 2015 ends [add_calendar_page] with that exception, and
    the canvas is left with the parameters saved for the cell still on the
    stack and with the page's font size and line width in force instead of
    the ones found.  [restoreState] did not run. *)
Lemma restore_skipped_when_cell_raises :
  let r := add_calendar_page (mkGeom 0 0 700 700) (datetime.mk 2015 2)
                             failing_cb false 6 blank in
  snd r = inl (Raised "cannot draw")
  /\ reportlab.state_stack (canvas blank) = []
  /\ reportlab.state_stack (canvas (fst r)) = [reportlab.gstate (canvas blank)]
  /\ reportlab.fontSize (reportlab.gstate (canvas blank)) = 12%Q
  /\ (reportlab.fontSize (reportlab.gstate (canvas (fst r))) == 19.6)%Q
  /\ (reportlab.lineWidth (reportlab.gstate (canvas (fst r))) == 1.75)%Q
  /\ ~ same_params blank (fst r).
Proof.
  cbv zeta; repeat split; try (vm_compute; reflexivity).
  intros [_ Hstack]; vm_compute in Hstack; discriminate Hstack.
Qed.

(** Why the callback has to leave the stack as it found it: one that saves
    without restoring makes [restoreState] undo the callback's save, and
    the page's font stays in force after the cell. *)
Lemma unbalanced_callback_leaks :
  let r := render_cell unbalanced_cb 1.75 (mkFont "Helvetica" 19.6) false 1
                       (mkGeom 0 700 100 100) blank in
  snd r = inr tt
  /\ (reportlab.fontSize (reportlab.gstate (canvas (fst r))) == 19.6)%Q
  /\ reportlab.fontSize (reportlab.gstate (canvas blank)) = 12%Q
  /\ reportlab.state_stack (canvas (fst r)) = [reportlab.gstate (canvas blank)].
Proof. cbv zeta; repeat split; vm_compute; reflexivity. Qed.

(** ** State shared between calls *)

Lemma draw_cell_keeps_calendar (stringWidth : string -> string -> Q -> Q) :
  keeps_calendar (draw_cell stringWidth).
Proof.
  intros day cell font ordinals w.
  destruct (Z.eq_dec day 0) as [-> | Hday].
  - reflexivity.
  - now rewrite draw_cell_date.
Qed.







(** ** Geometry of the page *)

Local Open Scope Q_scope.

Lemma scale_factor_le (rect : Geom) :
  scale_factor rect <= width rect /\ scale_factor rect <= height rect.
Proof.
  unfold scale_factor, Py.min; split; [apply Q.le_min_l | apply Q.le_min_r].
Qed.

Lemma scale_factor_pos (rect : Geom) :
  0 < width rect -> 0 < height rect -> 0 < scale_factor rect.
Proof.
  intros Hw Hh; unfold scale_factor, Py.min.
  destruct (Q.min_spec (width rect) (height rect)) as [[_ ->] | [_ ->]]; assumption.
Qed.

Lemma inset_positive (rect : Geom) :
  0 < width rect -> 0 < height rect ->
  0 < width (inset rect) /\ 0 < height (inset rect).
Proof.
  intros Hw Hh; destruct (scale_factor_le rect) as [H1 H2].
  pose proof (scale_factor_pos rect Hw Hh) as Hs.
  unfold inset, line_width; cbn [width height]; split; lra.
Qed.

Lemma inject_Z_succ (k : Z) : inject_Z (k + 1) == inject_Z k + 1.
Proof. rewrite inject_Z_plus; reflexivity. Qed.

(** Consecutive intervals of length [d] starting at [a] cover what they
    span. *)
Lemma intervals_cover (a d p : Q) (n : Z) :
  (0 < n)%Z -> 0 < d ->
  a <= p <= a + inject_Z n * d ->
  exists k, (0 <= k < n)%Z
            /\ a + inject_Z k * d <= p <= a + inject_Z (k + 1) * d.
Proof.
  intros Hn Hd; pattern n; apply (Zlt_lower_bound_ind _ 1%Z); [|lia].
  clear n Hn; intros n IH Hn [Hlo Hhi].
  destruct (Z.eq_dec n 1) as [-> | Hne].
  - exists 0%Z; split; [lia|].
    change (inject_Z (0 + 1)) with 1; change (inject_Z 0) with 0.
    change (inject_Z 1) with 1 in Hhi; split; lra.
  - destruct (Qlt_le_dec p (a + inject_Z (n - 1) * d)) as [Hlt | Hge].
    + destruct (IH (n - 1)%Z ltac:(lia) (conj Hlo (Qlt_le_weak _ _ Hlt)))
        as (k & Hk & Hin).
      exists k; split; [lia | exact Hin].
    + exists (n - 1)%Z; split; [lia|].
      replace (n - 1 + 1)%Z with n by lia; split; assumption.
Qed.

(** Two of those intervals only share end points. *)
Lemma intervals_apart (a d p : Q) (j k : Z) :
  (j < k)%Z -> 0 < d ->
  p < a + inject_Z (j + 1) * d -> a + inject_Z k * d < p -> False.
Proof.
  intros Hjk Hd Hj Hk.
  assert (Hle : inject_Z (j + 1) <= inject_Z k) by (rewrite <- Zle_Qle; lia).
  assert (Hmul : inject_Z (j + 1) * d <= inject_Z k * d)
    by (apply Qmult_le_compat_r; [assumption | lra]).
  lra.
Qed.

Lemma Qsum_app (l1 l2 : list Q) : Qsum (l1 ++ l2) == Qsum l1 + Qsum l2.
Proof.
  unfold Qsum; induction l1 as [|q l1 IH]; cbn [app fold_right].
  - now rewrite Qplus_0_l.
  - rewrite IH; apply Qplus_assoc.
Qed.

Lemma row_area (rect : Geom) (cs : Size) (rows row : Z) :
  Qsum (map area (map (fun col => cell_geom rect cs rows row col) (Py.range 0 7)))
  == 7 * (size_width cs * size_height cs).
Proof.
  change (Py.range 0 7) with [0; 1; 2; 3; 4; 5; 6]%Z.
  unfold Qsum, area, cell_geom; cbn [map fold_right width height]; ring.
Qed.

Lemma rows_area (rect : Geom) (cs : Size) (rows : Z) (l : list Z) :
  Qsum (map area
          (flat_map (fun row => map (fun col => cell_geom rect cs rows row col)
                                    (Py.range 0 7)) l))
  == inject_Z (Py.len l) * (7 * (size_width cs * size_height cs)).
Proof.
  induction l as [|row l IH]; cbn [flat_map]; [cbn; ring|].
  rewrite map_app, Qsum_app, row_area, IH.
  unfold Py.len; cbn [length]; rewrite Nat2Z.inj_succ, <- Z.add_1_r, inject_Z_succ.
  ring.
Qed.

Lemma cells_area (rect : Geom) (rows : Z) :
  (0 < rows)%Z ->
  Qsum (map area (cells rect (mkSize (width rect / 7)
                                     (height rect / inject_Z rows)) rows))
  == area rect.
Proof.
  intros Hrows; unfold cells; rewrite rows_area.
  unfold Py.len, Py.range; rewrite length_map, length_seq.
  replace (rows - 0)%Z with rows by lia; rewrite Z2Nat.id by lia.
  unfold area; cbn [size_width size_height].
  assert (Hnz : ~ inject_Z rows == 0).
  { intros H; apply (Qlt_irrefl 0); rewrite <- H at 2.
    change 0 with (inject_Z 0); rewrite <- Zlt_Qlt; lia. }
  field; exact Hnz.
Qed.

Section Tiling.

(** An inset rectangle [R] of positive size cut into [rows] rows. *)
Variables (R : Geom) (rows : Z).
Hypothesis Hwidth : 0 < width R.
Hypothesis Hheight : 0 < height R.
Hypothesis Hrows : (0 < rows)%Z.

Let cs : Size := mkSize (width R / 7) (height R / inject_Z rows).

Lemma rows_nonzero : ~ inject_Z rows == 0.
Proof.
  intros H; apply (Qlt_irrefl 0); rewrite <- H at 2.
  change 0 with (inject_Z 0); rewrite <- Zlt_Qlt; lia.
Qed.

Lemma cell_width_pos : 0 < size_width cs.
Proof. unfold cs; cbn [size_width]; apply Qlt_shift_div_l; lra. Qed.

Lemma cell_height_pos : 0 < size_height cs.
Proof.
  unfold cs; cbn [size_height]; apply Qlt_shift_div_l; [|lra].
  change 0 with (inject_Z 0); rewrite <- Zlt_Qlt; lia.
Qed.

Lemma columns_span : inject_Z 7 * size_width cs == width R.
Proof. unfold cs; cbn [size_width]; change (inject_Z 7) with 7; field. Qed.

Lemma rows_span : inject_Z rows * size_height cs == height R.
Proof. unfold cs; cbn [size_height]; field; exact rows_nonzero. Qed.

Lemma cell_in_rect (row col : Z) (px py : Q) :
  (0 <= row < rows)%Z -> (0 <= col < 7)%Z ->
  in_cell (cell_geom R cs rows row col) px py -> in_rect R px py.
Proof.
  intros Hrow Hcol [[Hx1 Hx2] [Hy1 Hy2]]; cbn [cell_geom x y width height] in *.
  pose proof cell_width_pos as Hcw; pose proof cell_height_pos as Hch.
  pose proof columns_span as Hcols; pose proof rows_span as Hrs.
  assert (H0 : 0 <= inject_Z col) by (change 0 with (inject_Z 0); rewrite <- Zle_Qle; lia).
  assert (H6 : inject_Z col + 1 <= inject_Z 7)
    by (rewrite <- inject_Z_succ, <- Zle_Qle; lia).
  assert (Hr1 : 1 <= inject_Z (rows - row))
    by (change 1 with (inject_Z 1); rewrite <- Zle_Qle; lia).
  assert (Hr2 : inject_Z (rows - row) <= inject_Z rows) by (rewrite <- Zle_Qle; lia).
  pose proof (Qmult_le_compat_r _ _ (size_width cs) H0 (Qlt_le_weak _ _ Hcw)).
  pose proof (Qmult_le_compat_r _ _ (size_width cs) H6 (Qlt_le_weak _ _ Hcw)).
  pose proof (Qmult_le_compat_r _ _ (size_height cs) Hr1 (Qlt_le_weak _ _ Hch)).
  pose proof (Qmult_le_compat_r _ _ (size_height cs) Hr2 (Qlt_le_weak _ _ Hch)).
  repeat split; lra.
Qed.

Lemma rect_covered (px py : Q) :
  in_rect R px py ->
  exists row col, (0 <= row < rows)%Z /\ (0 <= col < 7)%Z
                  /\ in_cell (cell_geom R cs rows row col) px py.
Proof.
  intros [[Hx1 Hx2] [Hy1 Hy2]].
  pose proof columns_span as Hcols; pose proof rows_span as Hrs.
  destruct (intervals_cover (x R) (size_width cs) px 7 ltac:(lia) cell_width_pos)
    as (col & Hcol & Hc1 & Hc2); [split; lra|].
  destruct (intervals_cover (y R) (size_height cs) py rows Hrows cell_height_pos)
    as (k & Hk & Hk1 & Hk2); [split; lra|].
  exists (rows - 1 - k)%Z, col; split; [lia|]; split; [assumption|].
  unfold in_cell; cbn [cell_geom x y width height].
  replace (rows - (rows - 1 - k))%Z with (k + 1)%Z by lia.
  rewrite inject_Z_succ in *; repeat split; lra.
Qed.

Lemma cells_disjoint (row col row' col' : Z) (px py : Q) :
  (row, col) <> (row', col') ->
  strictly_in_cell (cell_geom R cs rows row col) px py ->
  strictly_in_cell (cell_geom R cs rows row' col') px py ->
  False.
Proof.
  intros Hne [[Hx1 Hx2] [Hy1 Hy2]] [[Hx1' Hx2'] [Hy1' Hy2']].
  cbn [cell_geom x y width height] in *.
  pose proof cell_width_pos as Hcw; pose proof cell_height_pos as Hch.
  assert (Hcases : (col < col' \/ col' < col \/ row < row' \/ row' < row)%Z).
  { destruct (Z.eq_dec col col') as [-> |]; [|lia].
    destruct (Z.eq_dec row row') as [-> |]; [|lia].
    now contradiction Hne. }
  destruct Hcases as [H | [H | [H | H]]].
  - apply (intervals_apart (x R) (size_width cs) px col col' H Hcw);
      rewrite ?inject_Z_succ; lra.
  - apply (intervals_apart (x R) (size_width cs) px col' col H Hcw);
      rewrite ?inject_Z_succ; lra.
  - apply (intervals_apart (y R) (size_height cs) py (rows - row' - 1)
                           (rows - row - 1) ltac:(lia) Hch).
    + replace (rows - row' - 1 + 1)%Z with (rows - row')%Z by lia; lra.
    + replace (rows - row)%Z with (rows - row - 1 + 1)%Z in Hy1 by lia.
      rewrite inject_Z_succ in Hy1; lra.
  - apply (intervals_apart (y R) (size_height cs) py (rows - row - 1)
                           (rows - row' - 1) ltac:(lia) Hch).
    + replace (rows - row - 1 + 1)%Z with (rows - row)%Z by lia; lra.
    + replace (rows - row')%Z with (rows - row' - 1 + 1)%Z in Hy1' by lia.
      rewrite inject_Z_succ in Hy1'; lra.
Qed.

End Tiling.

(** ** The cells that the loops visit *)

Lemma for_each_app {A} (l1 l2 : list A) (body : A -> M unit) (w : World) :
  for_each (l1 ++ l2) body w = (for_each l1 body ;; for_each l2 body)%py w.
Proof.
  revert w; induction l1 as [|a l1 IH]; intros w; cbn [app for_each].
  - reflexivity.
  - unfold bind; destruct (body a w) as [w' [e | []]]; [reflexivity|].
    rewrite IH; reflexivity.
Qed.

Lemma for_each_map {A B} (f : A -> B) (l : list A) (body : B -> M unit)
      (w : World) :
  for_each (map f l) body w = for_each l (fun a => body (f a)) w.
Proof.
  revert w; induction l as [|a l IH]; intros w; cbn [map for_each]; [reflexivity|].
  unfold bind; destruct (body (f a) w) as [w' [e | []]]; [reflexivity | apply IH].
Qed.

Lemma for_each_ext {A} (l : list A) (body1 body2 : A -> M unit) (w : World) :
  (forall a v, body1 a v = body2 a v) ->
  for_each l body1 w = for_each l body2 w.
Proof.
  intros Hext; revert w; induction l as [|a l IH]; intros w; cbn [for_each];
    [reflexivity|].
  unfold bind; rewrite Hext.
  destruct (body2 a w) as [w' [e | []]]; [reflexivity | apply IH].
Qed.

(** The two loops call the callback on [visited], in that order. *)
Lemma loops_visit (cell_cb : CellCallback) (line_width : Q) (font : Font)
      (ordinals : bool) (cal : list (list Z)) (rect : Geom) (cs : Size)
      (rows : Z) (w : World) :
  for_each (Py.enumerate cal) (fun '(row, week) =>
    for_each (Py.enumerate week) (fun '(col, day) =>
      render_cell cell_cb line_width font ordinals day
                  (cell_geom rect cs rows row col))) w
  = for_each (visited cal rect cs rows)
             (fun '(day, cell) =>
                render_cell cell_cb line_width font ordinals day cell) w.
Proof.
  unfold visited; revert w.
  induction (Py.enumerate cal) as [|[row week] l IH]; intros w;
    cbn [for_each flat_map]; [reflexivity|].
  rewrite for_each_app; unfold bind; rewrite for_each_map.
  match goal with
  | |- match ?a with _ => _ end = match ?b with _ => _ end =>
      replace b with a
  end.
  - destruct (for_each _ _ w) as [w' [e | []]]; [reflexivity | apply IH].
  - apply for_each_ext; intros [col day] v; reflexivity.
Qed.

Lemma range_from_zero (n : nat) :
  Py.range 0 (Z.of_nat n) = map Z.of_nat (seq 0 n).
Proof.
  unfold Py.range; rewrite Z.sub_0_r, Nat2Z.id.
  apply map_ext; intros k; lia.
Qed.

Lemma enumerate_week {B} (g : Z -> B) (week : list Z) :
  length week = 7%nat ->
  map (fun '(col, day) => g col) (Py.enumerate week) = map g (Py.range 0 7).
Proof.
  intros Hlen.
  do 8 (destruct week as [|? week]; try discriminate Hlen).
  reflexivity.
Qed.

Lemma visited_from (g : Z -> Z -> Geom) (cal : list (list Z)) (start : nat) :
  Forall (fun week => length week = 7%nat) cal ->
  map snd
      (flat_map (fun '(row, week) =>
                   map (fun '(col, day) => (day, g row col)) (Py.enumerate week))
                (combine (map Z.of_nat (seq start (length cal))) cal))
  = flat_map (fun row => map (g row) (Py.range 0 7))
             (map Z.of_nat (seq start (length cal))).
Proof.
  intros Hcols; revert start.
  induction Hcols as [|week cal Hweek Hcal IH]; intros start; [reflexivity|].
  cbn [length seq map combine flat_map].
  rewrite map_app, IH, map_map; f_equal.
  rewrite <- (enumerate_week (g (Z.of_nat start)) week Hweek).
  apply map_ext; intros [col day]; reflexivity.
Qed.

(** The rectangles handed to the callback are the cells of the grid. *)
Lemma visited_cells (cal : list (list Z)) (rect : Geom) (cs : Size) :
  Forall (fun week => length week = 7%nat) cal ->
  map snd (visited cal rect cs (Py.len cal)) = cells rect cs (Py.len cal).
Proof.
  intros Hcols; unfold visited, cells, Py.enumerate, Py.len.
  now rewrite range_from_zero, visited_from.
Qed.

Lemma enumerate_days {B} (week : list B) (start : nat) :
  map snd (combine (map Z.of_nat (seq start (length week))) week) = week.
Proof.
  revert start; induction week as [|day week IH]; intros start; [reflexivity|].
  cbn [length seq map combine snd]; f_equal; apply IH.
Qed.

Lemma visited_days_from (g : Z -> Z -> Geom) (cal : list (list Z)) (start : nat) :
  map fst
      (flat_map (fun '(row, week) =>
                   map (fun '(col, day) => (day, g row col)) (Py.enumerate week))
                (combine (map Z.of_nat (seq start (length cal))) cal))
  = concat cal.
Proof.
  revert start; induction cal as [|week cal IH]; intros start; [reflexivity|].
  cbn [length seq map combine flat_map concat].
  rewrite map_app, IH, map_map; f_equal.
  rewrite <- (enumerate_days week 0) at 2.
  apply map_ext; intros [col day]; reflexivity.
Qed.

(** The days handed to the callback are the grid read row by row. *)
Lemma visited_days (cal : list (list Z)) (rect : Geom) (cs : Size) (rows : Z) :
  map fst (visited cal rect cs rows) = concat cal.
Proof. apply visited_days_from. Qed.

Lemma with_marks_nil (c : reportlab.Canvas) : with_marks [] c = c.
Proof. destruct c; unfold with_marks; cbn; now rewrite app_nil_r. Qed.

Lemma with_marks_app (ms1 ms2 : reportlab.Page) (c : reportlab.Canvas) :
  with_marks ms2 (with_marks ms1 c) = with_marks (ms1 ++ ms2) c.
Proof. unfold with_marks; cbn; now rewrite app_assoc. Qed.

Lemma outline_cb_balanced : returns_balanced outline_cb.
Proof. intros day cell font ordinals w; eexists; split; reflexivity. Qed.

Lemma visited_outlined (line_width : Q) (font : Font) (ordinals : bool)
      (l : list (Z * Geom)) (w : World) :
  for_each l (fun '(day, cell) =>
                render_cell outline_cb line_width font ordinals day cell) w
  = ({| calendar_c_firstweekday := calendar_c_firstweekday w;
        canvas := with_marks
                    (map (pair (reportlab.mkGState (name font) (size font)
                                                   line_width))
                         (map outline (map snd l)))
                    (canvas w) |},
     inr tt).
Proof.
  revert w; induction l as [|[day cell] l IH]; intros w; cbn [for_each map snd].
  - rewrite with_marks_nil; now destruct w.
  - rewrite (bind_inr _ _ _ _ _
               (render_cell_returns outline_cb line_width font ordinals day cell
                  w _ eq_refl eq_refl)), IH.
    cbn [calendar_c_firstweekday canvas restored].
    unfold with_marks, prepared, reportlab.draw; cbn.
    rewrite <- app_assoc; reflexivity.
Qed.

(** The page that [add_calendar_page] draws with the recording callback:
    the outline of every cell of the grid, row by row, then the label. *)
Lemma add_calendar_page_outlines (rect : Geom) (d : datetime.t)
      (ordinals : bool) (first_weekday : Z) (w : World) :
  (1 <= datetime.month d <= 12)%Z ->
  (0 <= first_weekday <= 6)%Z ->
  exists cal label,
    month_grid d first_weekday w
    = ({| calendar_c_firstweekday := first_weekday; canvas := canvas w |}, inr cal)
    /\ Forall (fun week => length week = 7%nat) cal
    /\ (4 <= Py.len cal <= 6)%Z
    /\ add_calendar_page rect d outline_cb ordinals first_weekday w
       = ({| calendar_c_firstweekday := first_weekday;
             canvas :=
               {| reportlab.filename := reportlab.filename (canvas w);
                  reportlab.pagesize := reportlab.pagesize (canvas w);
                  reportlab.gstate := reportlab.init_graphics_state;
                  reportlab.state_stack := [];
                  reportlab.code := [];
                  reportlab.pages :=
                    reportlab.pages (canvas w)
                    ++ [reportlab.code (canvas w)
                        ++ map (pair (reportlab.mkGState "Helvetica"
                                        (size (font rect)) (line_width rect)))
                               (map outline
                                    (cells (inset rect)
                                       (mkSize (width (inset rect) / 7)
                                               (height (inset rect)
                                                / inject_Z (Py.len cal)))
                                       (Py.len cal))
                                ++ [label])] |} |},
          inr tt).
Proof.
  intros Hm Hfw.
  destruct (add_calendar_page_run outline_cb rect d ordinals first_weekday w
              outline_cb_balanced Hm Hfw)
    as (cal & day1 & N & abbr & w1 & Hgrid & _ & _ & _ & H).
  cbv zeta in H; destruct H as (_ & _ & Hcells & _ & Hrun).
  destruct (month_grid_shape d first_weekday w Hm Hfw)
    as (cal' & _ & _ & _ & _ & Hgrid' & _ & _ & Hcols & Hrows & _).
  rewrite Hgrid in Hgrid'; injection Hgrid' as <-.
  eexists cal, _; split; [exact Hgrid|]; split; [exact Hcols|].
  split; [unfold Py.len; lia|].
  rewrite Hrun.
  rewrite loops_visit, visited_outlined, (visited_cells cal _ _ Hcols) in Hcells.
  injection Hcells as <-.
  cbn [calendar_c_firstweekday canvas].
  unfold reportlab.showPage, reportlab.with_gstate, reportlab.with_stack,
    reportlab.draw, prepared, with_marks, reportlab.setLineWidth,
    reportlab.setFont, reportlab.saveState.
  cbn; rewrite map_app, <- !app_assoc; reflexivity.
Qed.

(** C2.  Floats are read as exact rationals.  For a target rectangle of
    positive width and height, a month in 1..12 and a first weekday in
    0..6, let [stroke] be 0.0025 times the smaller of the rectangle's width
    and height, [R] the rectangle moved in by [stroke] on every side, and
    let the cell at (row, col) be [width R / 7] wide and [height R / rows]
    high with its left edge at [x R + cellWidth * col] and its top edge at
    [y R + (rows - row) * cellHeight].  Run with a callback that outlines
    the rectangle of every call, [add_calendar_page] closes a page that
    holds the outlines of exactly these cells, row by row, and then the
    label: these are the rectangles it computes.  Every cell lies inside
    [R], every point of [R] lies in some cell (no gaps), two different
    cells have no interior point in common (no overlap), and the areas of
    the cells add up to the area of [R]. *)
Theorem cells_tile_inset_rect (rect : Geom) (d : datetime.t) (ordinals : bool)
        (first_weekday : Z) (w : World) :
  0 < width rect -> 0 < height rect ->
  (1 <= datetime.month d <= 12)%Z ->
  (0 <= first_weekday <= 6)%Z ->
  exists cal label,
    month_grid d first_weekday w
    = ({| calendar_c_firstweekday := first_weekday; canvas := canvas w |}, inr cal)
    /\ let rows := Py.len cal in
       let scale := Py.min (width rect) (height rect) in
       let stroke := scale * 0.0025 in
       let R := mkGeom (x rect + stroke) (y rect + stroke)
                       (width rect - stroke * 2) (height rect - stroke * 2) in
       let cell := fun row col =>
         mkGeom (x R + width R / 7 * inject_Z col)
                (y R + inject_Z (rows - row) * (height R / inject_Z rows))
                (width R / 7) (height R / inject_Z rows) in
       let grid := flat_map (fun row => map (cell row) (Py.range 0 7))
                            (Py.range 0 rows) in
       add_calendar_page rect d outline_cb ordinals first_weekday w
       = ({| calendar_c_firstweekday := first_weekday;
             canvas :=
               {| reportlab.filename := reportlab.filename (canvas w);
                  reportlab.pagesize := reportlab.pagesize (canvas w);
                  reportlab.gstate := reportlab.init_graphics_state;
                  reportlab.state_stack := [];
                  reportlab.code := [];
                  reportlab.pages :=
                    reportlab.pages (canvas w)
                    ++ [reportlab.code (canvas w)
                        ++ map (pair (reportlab.mkGState "Helvetica"
                                        (scale * 0.028) stroke))
                               (map outline grid ++ [label])] |} |},
          inr tt)
       /\ map snd (visited cal R (mkSize (width R / 7)
                                         (height R / inject_Z rows)) rows)
          = grid
       /\ 0 < width R /\ 0 < height R
       /\ (forall row col px py,
              (0 <= row < rows)%Z -> (0 <= col < 7)%Z ->
              in_cell (cell row col) px py -> in_rect R px py)
       /\ (forall px py,
              in_rect R px py ->
              exists row col, (0 <= row < rows)%Z /\ (0 <= col < 7)%Z
                              /\ in_cell (cell row col) px py)
       /\ (forall row col row' col' px py,
              (row, col) <> (row', col') ->
              strictly_in_cell (cell row col) px py ->
              strictly_in_cell (cell row' col') px py ->
              False)
       /\ Qsum (map (fun g => width g * height g) grid) == width R * height R.
Proof.
  intros Hw Hh Hm Hfw.
  destruct (add_calendar_page_outlines rect d ordinals first_weekday w Hm Hfw)
    as (cal & label & Hgrid & Hcols & Hrows & Hrun).
  destruct (inset_positive rect Hw Hh) as [HRw HRh].
  assert (Hpos : (0 < Py.len cal)%Z) by lia.
  exists cal, label; split; [exact Hgrid|]; cbv zeta.
  split; [exact Hrun|].
  split; [exact (visited_cells cal (inset rect) _ Hcols)|].
  split; [exact HRw|]. split; [exact HRh|].
  split; [exact (cell_in_rect (inset rect) (Py.len cal) HRw HRh Hpos)|].
  split; [exact (rect_covered (inset rect) (Py.len cal) HRw HRh Hpos)|].
  split; [exact (cells_disjoint (inset rect) (Py.len cal) HRw HRh Hpos)|].
  exact (cells_area (inset rect) (Py.len cal) Hpos).
Qed.

(** February 2015 on a 700 by 700 rectangle. *)
Lemma cells_tile_inset_rect_witness :
  exists w',
    add_calendar_page (mkGeom 0 0 700 700) (datetime.mk 2015 2) outline_cb
                      false 6 blank
    = (w', inr tt).
Proof.
  destruct (cells_tile_inset_rect (mkGeom 0 0 700 700) (datetime.mk 2015 2)
              false 6 blank)
    as (cal & label & _ & H); try reflexivity; try (simpl; lia).
  cbv zeta in H; destruct H as (Hrun & _).
  eexists; exact Hrun.
Defined.

(** ** Scale *)






(** * Further properties *)

(** ** What [draw_cell] puts on the page *)

Lemma draw_cell_run (stringWidth : string -> string -> Q -> Q)
      (day : Z) (rect : Geom) (font : Font) (ordinals : bool) (w : World) :
  draw_cell stringWidth day rect font ordinals w
  = ({| calendar_c_firstweekday := calendar_c_firstweekday w;
        canvas := with_marks
                    (map (pair (reportlab.gstate (canvas w)))
                         (cell_marks stringWidth font ordinals (day, rect)))
                    (canvas w) |},
     inr tt).
Proof.
  unfold cell_marks; cbn [fst snd].
  destruct (Z.eqb_spec day 0) as [-> | Hday].
  - rewrite draw_cell_empty; cbn [map]; rewrite with_marks_nil; now destruct w.
  - rewrite draw_cell_date by assumption.
    unfold date_marks, with_marks, reportlab.draw.
    destruct ordinals; cbn; rewrite <- ?app_assoc; reflexivity.
Qed.

Lemma render_cell_draw_cell (stringWidth : string -> string -> Q -> Q)
      (line_width : Q) (font : Font) (ordinals : bool) (day : Z) (cell : Geom)
      (w : World) :
  render_cell (draw_cell stringWidth) line_width font ordinals day cell w
  = ({| calendar_c_firstweekday := calendar_c_firstweekday w;
        canvas := with_marks
                    (map (pair (reportlab.mkGState (name font) (size font)
                                                   line_width))
                         (cell_marks stringWidth font ordinals (day, cell)))
                    (canvas w) |},
     inr tt).
Proof.
  rewrite (render_cell_returns _ _ _ _ _ _ _ _
             (draw_cell_run stringWidth day cell font ordinals
                            (prepared line_width font w)) eq_refl).
  reflexivity.
Qed.

Lemma visited_drawn (stringWidth : string -> string -> Q -> Q)
      (line_width : Q) (font : Font) (ordinals : bool)
      (l : list (Z * Geom)) (w : World) :
  for_each l (fun '(day, cell) =>
                render_cell (draw_cell stringWidth) line_width font ordinals
                            day cell) w
  = ({| calendar_c_firstweekday := calendar_c_firstweekday w;
        canvas := with_marks
                    (map (pair (reportlab.mkGState (name font) (size font)
                                                   line_width))
                         (flat_map (cell_marks stringWidth font ordinals) l))
                    (canvas w) |},
     inr tt).
Proof.
  revert w; induction l as [|[day cell] l IH]; intros w; cbn [for_each flat_map].
  - cbn [map]; rewrite with_marks_nil; now destruct w.
  - rewrite (bind_inr _ _ _ _ _ (render_cell_draw_cell _ _ _ _ day cell w)), IH.
    cbn [calendar_c_firstweekday canvas].
    now rewrite with_marks_app, map_app.
Qed.

(** The whole page drawn by [draw_cell]: the marks of the cells in the
    order of the loops, then the label, on top of what the page in progress
    already held; the page is closed and the canvas starts a new one. *)
Lemma add_calendar_page_draws (stringWidth : string -> string -> Q -> Q)
      (rect : Geom) (d : datetime.t) (ordinals : bool) (first_weekday : Z)
      (w : World) :
  (1 <= datetime.month d <= 12)%Z ->
  (0 <= first_weekday <= 6)%Z ->
  exists cal day1 N abbr,
    calendar.monthdayscalendar first_weekday (datetime.year d) (datetime.month d)
    = inr cal
    /\ calendar.monthrange (datetime.year d) (datetime.month d) = inr (day1, N)
    /\ Py.getitem calendar.month_abbr (datetime.month d) = inr abbr
    /\ let rows := Py.len cal in
       let cs := mkSize (width (inset rect) / 7)
                        (height (inset rect) / inject_Z rows) in
       let slot := if (day1 =? first_weekday)%Z
                   then (rows - 1, 6)%Z else (0, 0)%Z in
       let cell := cell_geom (inset rect) cs rows (fst slot) (snd slot) in
       let label := reportlab.string_mark
                      (x cell + size (font rect) * 0.5)
                      (y cell - size (font rect) * 1.3)
                      (abbr ++ " " ++ Py.str (datetime.year d)) in
       let marks := flat_map (cell_marks stringWidth (font rect) ordinals)
                             (visited cal (inset rect) cs rows)
                    ++ [label] in
       add_calendar_page rect d (draw_cell stringWidth) ordinals first_weekday w
       = ({| calendar_c_firstweekday := first_weekday;
             canvas :=
               {| reportlab.filename := reportlab.filename (canvas w);
                  reportlab.pagesize := reportlab.pagesize (canvas w);
                  reportlab.gstate := reportlab.init_graphics_state;
                  reportlab.state_stack := [];
                  reportlab.code := [];
                  reportlab.pages :=
                    reportlab.pages (canvas w)
                    ++ [reportlab.code (canvas w)
                        ++ map (pair (reportlab.mkGState "Helvetica"
                                        (size (font rect)) (line_width rect)))
                               marks] |} |},
          inr tt).
Proof.
  intros Hm Hfw.
  destruct (add_calendar_page_run (draw_cell stringWidth) rect d ordinals
              first_weekday w (draw_cell_balanced stringWidth) Hm Hfw)
    as (cal & day1 & N & abbr & w1 & Hgrid & Hmr & Habbr & _ & H).
  cbv zeta in H; destruct H as (_ & _ & Hcells & _ & Hrun).
  rewrite month_grid_run in Hgrid by assumption.
  injection Hgrid as Hgrid.
  exists cal, day1, N, abbr; repeat split; try assumption.
  cbv zeta; rewrite Hrun.
  rewrite loops_visit, visited_drawn in Hcells.
  injection Hcells as <-.
  cbn [calendar_c_firstweekday canvas].
  unfold reportlab.showPage, reportlab.with_gstate, reportlab.with_stack,
    reportlab.draw, prepared, with_marks, reportlab.setLineWidth,
    reportlab.setFont, reportlab.saveState.
  cbn; rewrite map_app, <- !app_assoc; reflexivity.
Qed.

Lemma texts_app (ms1 ms2 : list reportlab.Mark) :
  texts (ms1 ++ ms2) = (texts ms1 ++ texts ms2)%list.
Proof. apply flat_map_app. Qed.

Lemma count_rects_app (ms1 ms2 : list reportlab.Mark) :
  count_rects (ms1 ++ ms2) = (count_rects ms1 + count_rects ms2)%nat.
Proof. unfold count_rects; now rewrite filter_app, length_app. Qed.

Lemma texts_cells (stringWidth : string -> string -> Q -> Q) (font : Font)
      (ordinals : bool) (l : list (Z * Geom)) :
  texts (flat_map (cell_marks stringWidth font ordinals) l)
  = flat_map (day_texts ordinals)
             (filter (fun day => negb (day =? 0)%Z) (map fst l)).
Proof.
  induction l as [|[day cell] l IH]; [reflexivity|].
  cbn [flat_map map fst filter]; rewrite texts_app, IH.
  unfold cell_marks; cbn [fst snd].
  destruct (day =? 0)%Z; cbn [negb]; [reflexivity|].
  cbn [flat_map]; f_equal.
  unfold date_marks, day_texts; destruct ordinals; reflexivity.
Qed.

Lemma count_rects_cells (stringWidth : string -> string -> Q -> Q)
      (font : Font) (ordinals : bool) (l : list (Z * Geom)) :
  count_rects (flat_map (cell_marks stringWidth font ordinals) l)
  = length (filter (fun day => negb (day =? 0)%Z) (map fst l)).
Proof.
  induction l as [|[day cell] l IH]; [reflexivity|].
  cbn [flat_map map fst filter]; rewrite count_rects_app, IH.
  unfold cell_marks; cbn [fst snd].
  destruct (day =? 0)%Z; cbn [negb]; [reflexivity|].
  unfold date_marks; destruct ordinals; reflexivity.
Qed.

(** X1.  For a day of at most 4300 digits (what CPython converts to a
    string), and a font that the canvas can measure text in ([stringWidth]
    is a function that returns), [draw_cell] returns for every rectangle,
    font size and ordinals flag: the day's string always parses back and
    the table always has its default, so neither [ValueError] nor
    [KeyError] is raised.  It only adds marks to the page in progress,
    drawn with the parameters in force: none for day 0, border and number
    for any other day, and the suffix as a third mark with ordinals; the
    drawing parameters, the saved parameters, the finished pages and the
    [calendar] module are left as they were. *)
Theorem draw_cell_always_returns (stringWidth : string -> string -> Q -> Q)
        (day : Z) (rect : Geom) (font : Font) (ordinals : bool) (w : World) :
  (Z.abs day < 10 ^ 4300)%Z ->
  draw_cell stringWidth day rect font ordinals w
  = ({| calendar_c_firstweekday := calendar_c_firstweekday w;
        canvas := with_marks
                    (map (pair (reportlab.gstate (canvas w)))
                         (cell_marks stringWidth font ordinals (day, rect)))
                    (canvas w) |},
     inr tt)
  /\ length (cell_marks stringWidth font ordinals (day, rect))
     = (if (day =? 0)%Z then 0 else if ordinals then 3 else 2)%nat
  /\ texts (cell_marks stringWidth font ordinals (day, rect))
     = (if (day =? 0)%Z then [] else day_texts ordinals day).
Proof.
  intros _; split; [apply draw_cell_run|].
  unfold cell_marks, date_marks, day_texts; cbn [fst snd].
  destruct (day =? 0)%Z; destruct ordinals; split; reflexivity.
Qed.

(** Day 31 with ordinals. *)
Lemma draw_cell_always_returns_witness :
  exists w',
    draw_cell digits_width 31%Z (mkGeom 0 700 100 100) (mkFont "Helvetica" 20)
              true blank
    = (w', inr tt)
    /\ texts (cell_marks digits_width (mkFont "Helvetica" 20) true
                         (31%Z, mkGeom 0 700 100 100))
       = ["31"; "st"]%string.
Proof.
  destruct (draw_cell_always_returns digits_width 31%Z (mkGeom 0 700 100 100)
              (mkFont "Helvetica" 20) true blank)
    as (Hrun & _ & Htexts).
  - vm_compute; reflexivity.
  - eexists; split; [exact Hrun | exact Htexts].
Defined.

(** X2.  For a month in 1..12 and a first weekday in 0..6,
    [add_calendar_page] with [draw_cell] completes, for any target
    rectangle and on any canvas.  It sets the module's first weekday,
    closes exactly one page and leaves the canvas at the start of a fresh
    one.  The closed page holds what the page in progress held before,
    then the marks of the cells in loop order, then the label; earlier
    pages are kept.  Among the new marks there are exactly N rectangles,
    one border per day of the month, and the strings are, in order, the
    numbers 1, 2, ..., N (each followed by its suffix with ordinals) and
    last the label's text: no day is left out, repeated or out of order,
    and padding cells draw nothing. *)
Theorem page_shows_each_day_once (stringWidth : string -> string -> Q -> Q)
        (rect : Geom) (d : datetime.t) (ordinals : bool) (first_weekday : Z)
        (w : World) :
  (1 <= datetime.month d <= 12)%Z ->
  (0 <= first_weekday <= 6)%Z ->
  exists N abbr marks,
    calendar.monthrange (datetime.year d) (datetime.month d)
    = inr (calendar.weekday (datetime.year d) (datetime.month d) 1, N)
    /\ Py.getitem calendar.month_abbr (datetime.month d) = inr abbr
    /\ add_calendar_page rect d (draw_cell stringWidth) ordinals first_weekday w
       = ({| calendar_c_firstweekday := first_weekday;
             canvas :=
               {| reportlab.filename := reportlab.filename (canvas w);
                  reportlab.pagesize := reportlab.pagesize (canvas w);
                  reportlab.gstate := reportlab.init_graphics_state;
                  reportlab.state_stack := [];
                  reportlab.code := [];
                  reportlab.pages :=
                    reportlab.pages (canvas w)
                    ++ [reportlab.code (canvas w)
                        ++ map (pair (reportlab.mkGState "Helvetica"
                                        (size (font rect)) (line_width rect)))
                               marks] |} |},
          inr tt)
    /\ count_rects marks = Z.to_nat N
    /\ texts marks
       = (flat_map (day_texts ordinals) (map Z.of_nat (seq 1 (Z.to_nat N)))
          ++ [abbr ++ " " ++ Py.str (datetime.year d)]%string)%list.
Proof.
  intros Hm Hfw.
  destruct (add_calendar_page_draws stringWidth rect d ordinals first_weekday w
              Hm Hfw) as (cal & day1 & N & abbr & Hcal & Hmr & Habbr & Hrun).
  cbv zeta in Hrun.
  destruct (month_grid_shape d first_weekday w Hm Hfw)
    as (cal' & day1' & N' & before & after
        & Hgrid & Hmr' & _ & _ & _ & _ & _ & _ & Hdays).
  rewrite month_grid_run, Hcal in Hgrid by assumption.
  injection Hgrid as <-.
  rewrite Hmr in Hmr'; injection Hmr' as <- <-.
  assert (Hday1 : day1 = calendar.weekday (datetime.year d) (datetime.month d) 1).
  { unfold calendar.monthrange in Hmr.
    destruct (negb _); [discriminate|]; now injection Hmr as <- _. }
  subst day1.
  eexists N, abbr, _; split; [exact Hmr|]; split; [exact Habbr|].
  split; [exact Hrun|]; split.
  - rewrite count_rects_app, count_rects_cells, visited_days, Hdays.
    rewrite length_map, length_seq; cbn; lia.
  - rewrite texts_app, texts_cells, visited_days, Hdays; reflexivity.
Qed.

(** November 2026 with Monday first, on a fresh letter page. *)
Lemma page_shows_each_day_once_witness :
  exists N abbr marks,
    add_calendar_page (mkGeom 0 0 700 700) (datetime.mk 2026 11)
                      (draw_cell digits_width) false 0 blank
    = ({| calendar_c_firstweekday := 0;
          canvas :=
            {| reportlab.filename := "calendar.pdf";
               reportlab.pagesize := letter_landscape;
               reportlab.gstate := reportlab.init_graphics_state;
               reportlab.state_stack := [];
               reportlab.code := [];
               reportlab.pages :=
                 [map (pair (reportlab.mkGState "Helvetica"
                               (size (font (mkGeom 0 0 700 700)))
                               (line_width (mkGeom 0 0 700 700))))
                      marks] |} |},
       inr tt)
    /\ count_rects marks = Z.to_nat N
    /\ texts marks
       = (flat_map (day_texts false) (map Z.of_nat (seq 1 (Z.to_nat N)))
          ++ [abbr ++ " " ++ Py.str 2026]%string)%list.
Proof.
  destruct (page_shows_each_day_once digits_width (mkGeom 0 0 700 700)
              (datetime.mk 2026 11) false 0 blank
              ltac:(simpl; lia) ltac:(lia))
    as (N & abbr & marks & _ & _ & Hrun & Hcount & Htexts).
  exists N, abbr, marks; repeat split; assumption.
Defined.

(** ** Where each date is drawn *)

Lemma monthrange_month (year month day1 N : Z) :
  calendar.monthrange year month = inr (day1, N) -> (1 <= month <= 12)%Z.
Proof.
  unfold calendar.monthrange; intros Hmr.
  destruct ((1 <=? month)%Z && (month <=? 12)%Z)%bool eqn:E; [|discriminate].
  apply andb_true_iff in E as [E1 E2]; apply Z.leb_le in E1, E2; lia.
Qed.

Lemma weekday_shift (year month k : Z) :
  calendar.weekday year month k
  = ((calendar.weekday year month 1 + (k - 1)) mod 7)%Z.
Proof.
  unfold calendar.weekday, datetime.date_weekday, datetime._ymd2ord.
  rewrite Zplus_mod_idemp_l; f_equal; lia.
Qed.

Lemma concat_length_7 (cal : list (list Z)) :
  Forall (fun week => length week = 7%nat) cal ->
  length (concat cal) = (7 * length cal)%nat.
Proof.
  induction 1 as [|week cal Hweek _ IH]; [reflexivity|].
  cbn [concat length]; rewrite length_app, IH, Hweek; lia.
Qed.

Lemma grid_cell_inv (cal : list (list Z)) (row col day : Z) :
  grid_cell cal row col = inr day ->
  exists week, nth_error cal (Z.to_nat row) = Some week
               /\ nth_error week (Z.to_nat col) = Some day.
Proof.
  unfold grid_cell, Py.getitem.
  destruct (nth_error cal (Z.to_nat row)) as [week|]; [|discriminate].
  destruct (nth_error week (Z.to_nat col)) as [day'|] eqn:E; [|discriminate].
  intros [= <-]; now exists week.
Qed.

Lemma enumerate_in {A} (l : list A) (i : nat) (a : A) :
  nth_error l i = Some a -> In (Z.of_nat i, a) (Py.enumerate l).
Proof.
  unfold Py.enumerate; change i with (0 + i)%nat at 2; generalize 0%nat as start.
  revert i; induction l as [|b l IH]; intros i start Hi; [now destruct i|].
  cbn [length seq map combine]; destruct i as [|i]; cbn [nth_error] in Hi.
  - injection Hi as ->; left; f_equal; f_equal; lia.
  - right; replace (start + S i)%nat with (S start + i)%nat by lia.
    now apply IH.
Qed.

Lemma visited_in (cal : list (list Z)) (rect : Geom) (cs : Size) (rows : Z)
      (r c : nat) (week : list Z) (day : Z) :
  nth_error cal r = Some week -> nth_error week c = Some day ->
  In (day, cell_geom rect cs rows (Z.of_nat r) (Z.of_nat c))
     (visited cal rect cs rows).
Proof.
  intros Hr Hc; unfold visited; apply in_flat_map.
  exists (Z.of_nat r, week); split; [now apply enumerate_in|].
  apply in_map_iff; exists (Z.of_nat c, day); split; [reflexivity|].
  now apply enumerate_in.
Qed.

(** The place of day [k] in the grid. *)
Lemma date_place (first_weekday year month day1 N k : Z) :
  (0 <= first_weekday <= 6)%Z ->
  calendar.monthrange year month = inr (day1, N) ->
  (1 <= k <= N)%Z ->
  exists cal,
    calendar.monthdayscalendar first_weekday year month = inr cal
    /\ Forall (fun week => length week = 7%nat) cal
    /\ let i := ((day1 - first_weekday) mod 7 + k - 1)%Z in
       (0 <= i / 7 < Py.len cal)%Z
       /\ (i mod 7 = (calendar.weekday year month k - first_weekday) mod 7)%Z
       /\ grid_cell cal (i / 7) (i mod 7) = inr k.
Proof.
  intros Hfw Hmr Hk.
  assert (Hm : (1 <= month <= 12)%Z).
  { unfold calendar.monthrange in Hmr.
    destruct ((1 <=? month)%Z && (month <=? 12)%Z)%bool eqn:E; [|discriminate].
    apply andb_true_iff in E as [E1 E2]; apply Z.leb_le in E1, E2; lia. }
  assert (Hday1 : day1 = calendar.weekday year month 1).
  { unfold calendar.monthrange in Hmr.
    destruct (negb _); [discriminate|]; now injection Hmr as <- _. }
  destruct (monthdayscalendar_shape first_weekday year month Hm)
    as (cal & day1' & N' & before & after
        & Hcal & Hmr' & Hb & Ha & Hcols & Hrows & Hcat).
  rewrite Hmr in Hmr'; injection Hmr' as <- <-.
  rewrite (Z.mod_small first_weekday 7) in Hb by lia.
  exists cal; split; [exact Hcal|]; split; [exact Hcols|]; cbv zeta.
  rewrite <- Hb.
  assert (Hbefore : (0 <= before < 7)%Z) by (subst before; apply Z.mod_pos_bound; lia).
  set (i := (before + k - 1)%Z).
  assert (Hlen : (before + N + after = 7 * Py.len cal)%Z).
  { pose proof (concat_length_7 cal Hcols) as H.
    rewrite Hcat, !length_app, !repeat_length, length_map, length_seq in H.
    unfold Py.len; lia. }
  pose proof (Z.div_mod i 7 ltac:(lia)) as Hdiv.
  pose proof (Z.mod_pos_bound i 7 ltac:(lia)) as Hmod.
  assert (Hrow : (0 <= i / 7 < Py.len cal)%Z).
  { split; [apply Z.div_pos; lia|].
    apply Z.div_lt_upper_bound; lia. }
  split; [exact Hrow|]; split.
  - unfold i; rewrite Hb, (weekday_shift year month k), <- Hday1.
    rewrite Zminus_mod_idemp_l.
    replace ((day1 - first_weekday) mod 7 + k - 1)%Z
      with ((day1 - first_weekday) mod 7 + (k - 1))%Z by lia.
    rewrite Zplus_mod_idemp_l; f_equal; lia.
  - destruct (grid_cell_concat cal (i / 7) (i mod 7) Hcols Hrow Hmod)
      as (day & -> & Hday).
    f_equal; rewrite <- Hdiv, Hcat in Hday.
    rewrite nth_error_app2 in Hday by (rewrite repeat_length; lia).
    rewrite repeat_length, nth_error_app1 in Hday
      by (rewrite length_map, length_seq; lia).
    rewrite nth_error_days in Hday by lia.
    match type of Hday with Some ?a = _ => assert (a = day) by congruence end.
    lia.
Qed.

(** X3.  Every date is drawn in the column of its weekday.  For a first
    weekday in 0..6, a month that [calendar.monthrange] accepts and a day
    [k] of that month: the grid holds [k] in column
    [(weekday(year, month, k) - first_weekday) mod 7] of row
    [(before + k - 1) / 7], where [before] is the number of padding cells
    in front of the 1st; the cells that the loops visit include day [k]
    with the rectangle of that row and column; and the page that
    [add_calendar_page] closes when run with [draw_cell] holds the border
    of that rectangle and the string of [k] anchored in it. *)
Theorem date_in_weekday_column (stringWidth : string -> string -> Q -> Q)
        (rect : Geom) (d : datetime.t) (ordinals : bool) (w : World)
        (first_weekday day1 N k : Z) :
  (0 <= first_weekday <= 6)%Z ->
  calendar.monthrange (datetime.year d) (datetime.month d) = inr (day1, N) ->
  (1 <= k <= N)%Z ->
  exists cal marks w',
    calendar.monthdayscalendar first_weekday (datetime.year d) (datetime.month d)
    = inr cal
    /\ let before := ((day1 - first_weekday) mod 7)%Z in
       let row := ((before + k - 1) / 7)%Z in
       let col := ((calendar.weekday (datetime.year d) (datetime.month d) k
                    - first_weekday) mod 7)%Z in
       (0 <= row < Py.len cal)%Z
       /\ (0 <= col <= 6)%Z
       /\ grid_cell cal row col = inr k
       /\ (forall r cs,
              In (k, cell_geom r cs (Py.len cal) row col)
                 (visited cal r cs (Py.len cal)))
       /\ add_calendar_page rect d (draw_cell stringWidth) ordinals
                            first_weekday w
          = (w', inr tt)
       /\ reportlab.pages (canvas w')
          = (reportlab.pages (canvas w)
             ++ [reportlab.code (canvas w)
                 ++ map (pair (reportlab.mkGState "Helvetica"
                                 (size (font rect)) (line_width rect)))
                        marks])%list
       /\ let cell := cell_geom (inset rect)
                                (mkSize (width (inset rect) / 7)
                                        (height (inset rect)
                                         / inject_Z (Py.len cal)))
                                (Py.len cal) row col in
          In (outline cell) marks
          /\ In (reportlab.string_mark (x cell + size (font rect) * 0.5)
                                       (y cell - size (font rect) * 1.3)
                                       (Py.str k)) marks.
Proof.
  intros Hfw Hmr Hk.
  pose proof (monthrange_month _ _ _ _ Hmr) as Hm.
  destruct (date_place first_weekday _ _ day1 N k Hfw Hmr Hk)
    as (cal & Hcal & Hcols & H).
  cbv zeta in H; destruct H as (Hrow & Hcol & Hcell).
  rewrite Hcol in Hcell.
  pose proof (Z.mod_pos_bound
                (calendar.weekday (datetime.year d) (datetime.month d) k
                 - first_weekday) 7 ltac:(lia)) as Hbound.
  destruct (grid_cell_inv _ _ _ _ Hcell) as (week & Hweek & Hday).
  assert (Hin : forall r cs,
             In (k, cell_geom r cs (Py.len cal)
                      ((((day1 - first_weekday) mod 7) + k - 1) / 7)%Z
                      ((calendar.weekday (datetime.year d) (datetime.month d) k
                        - first_weekday) mod 7)%Z)
                (visited cal r cs (Py.len cal))).
  { intros r cs.
    pose proof (visited_in cal r cs (Py.len cal) _ _ week k Hweek Hday) as Hin.
    now rewrite !Z2Nat.id in Hin by lia. }
  destruct (add_calendar_page_draws stringWidth rect d ordinals first_weekday w
              Hm Hfw) as (cal' & day1' & N' & abbr & Hcal' & _ & _ & Hrun).
  rewrite Hcal in Hcal'; injection Hcal' as <-.
  cbv zeta in Hrun.
  eexists cal, _, _; split; [exact Hcal|]; cbv zeta.
  split; [exact Hrow|]. split; [lia|]. split; [exact Hcell|].
  split; [exact Hin|]. split; [exact Hrun|]. split; [reflexivity|].
  assert (Hk0 : (k =? 0)%Z = false) by (apply Z.eqb_neq; lia).
  split; apply in_or_app; left; apply in_flat_map;
    (eexists; split; [apply Hin|]);
    unfold cell_marks, date_marks; cbn [fst snd]; rewrite Hk0.
  - left; reflexivity.
  - right; left; reflexivity.
Qed.

(** The 4th of November 2026, a Wednesday, with Monday first. *)
Lemma date_in_weekday_column_witness :
  exists cal w',
    calendar.monthdayscalendar 0 2026 11 = inr cal
    /\ calendar.weekday 2026 11 4 = 2%Z
    /\ grid_cell cal 1 2 = inr 4%Z
    /\ add_calendar_page (mkGeom 0 0 700 700) (datetime.mk 2026 11)
                         (draw_cell digits_width) false 0 blank
       = (w', inr tt).
Proof.
  destruct (date_in_weekday_column digits_width (mkGeom 0 0 700 700)
              (datetime.mk 2026 11) false blank 0 6 30 4)
    as (cal & marks & w' & Hcal & H); try reflexivity; try lia.
  cbv zeta in H; destruct H as (_ & _ & Hcell & _ & Hrun & _).
  exists cal, w'; repeat split; [exact Hcal | exact Hcell | exact Hrun].
Defined.

(** X4.  The number of rows of the grid follows from the month's length
    and the weekday of the 1st: it is [(before + N + 6) / 7], where
    [before] is the number of padding cells in front of the 1st.  There
    are four rows exactly when a 28-day month starts on the first weekday,
    and six rows exactly when [before + N] exceeds 35. *)
Theorem grid_rows_count (first_weekday year month day1 N : Z) :
  (0 <= first_weekday <= 6)%Z ->
  calendar.monthrange year month = inr (day1, N) ->
  exists cal,
    calendar.monthdayscalendar first_weekday year month = inr cal
    /\ let before := ((day1 - first_weekday) mod 7)%Z in
       Py.len cal = ((before + N + 6) / 7)%Z
       /\ (Py.len cal = 4%Z <-> N = 28%Z /\ day1 = first_weekday)
       /\ (Py.len cal = 6%Z <-> (35 < before + N)%Z).
Proof.
  intros Hfw Hmr.
  assert (Hm : (1 <= month <= 12)%Z).
  { unfold calendar.monthrange in Hmr.
    destruct ((1 <=? month)%Z && (month <=? 12)%Z)%bool eqn:E; [|discriminate].
    apply andb_true_iff in E as [E1 E2]; apply Z.leb_le in E1, E2; lia. }
  destruct (monthrange_valid year month Hm) as (day1' & N' & Hmr' & Hd & HN).
  rewrite Hmr in Hmr'; injection Hmr' as <- <-.
  destruct (monthdayscalendar_shape first_weekday year month Hm)
    as (cal & day1' & N' & before & after
        & Hcal & Hmr' & Hb & Ha & Hcols & Hrows & Hcat).
  rewrite Hmr in Hmr'; injection Hmr' as <- <-.
  rewrite (Z.mod_small first_weekday 7) in Hb by lia.
  exists cal; split; [exact Hcal|]; cbv zeta; rewrite <- Hb.
  assert (Hbefore : (0 <= before < 7)%Z) by (subst before; apply Z.mod_pos_bound; lia).
  assert (Hlen : (before + N + after = 7 * Py.len cal)%Z).
  { pose proof (concat_length_7 cal Hcols) as H.
    rewrite Hcat, !length_app, !repeat_length, length_map, length_seq in H.
    unfold Py.len; lia. }
  assert (Hzero : (before = 0 <-> day1 = first_weekday)%Z).
  { pose proof (Z.div_mod (day1 - first_weekday) 7 ltac:(lia)).
    rewrite <- Hb in *; lia. }
  split; [|split].
  - apply Z.div_unique with (r := (6 - after)%Z); lia.
  - lia.
  - lia.
Qed.

(** February 2015 with Sunday first: four rows. *)
Lemma grid_rows_count_witness :
  exists cal,
    calendar.monthdayscalendar 6 2015 2 = inr cal /\ Py.len cal = 4%Z.
Proof.
  destruct (grid_rows_count 6 2015 2 6 28) as (cal & Hcal & H);
    try reflexivity; try lia.
  cbv zeta in H; destruct H as (_ & Hfour & _).
  exists cal; split; [exact Hcal|]; apply Hfour; split; reflexivity.
Defined.

(** ** Errors *)

(** X5.  A first weekday outside 0..6 is refused before anything else is
    done: [add_calendar_page] raises [IllegalWeekdayError] with that value,
    whatever the callback, and leaves the canvas and the [calendar] module
    exactly as they were; [generate_pdf] raises the same and writes no
    file. *)
Theorem bad_first_weekday_is_refused (stringWidth : string -> string -> Q -> Q)
        (cell_cb : CellCallback) (rect : Geom) (d : datetime.t)
        (ordinals : bool) (first_weekday : Z) (w : World) :
  ~ (0 <= first_weekday <= 6)%Z ->
  add_calendar_page rect d cell_cb ordinals first_weekday w
  = (w, inl (IllegalWeekdayError first_weekday))
  /\ forall outfile size fwd fs,
       generate_pdf stringWidth d outfile size ordinals first_weekday fwd fs
       = ((fwd, fs), inl (IllegalWeekdayError first_weekday)).
Proof.
  intros Hfw.
  assert (Hguard : negb ((calendar.MONDAY <=? first_weekday)%Z
                         && (first_weekday <=? calendar.SUNDAY)%Z) = true).
  { apply negb_true_iff, andb_false_iff.
    unfold calendar.MONDAY, calendar.SUNDAY.
    destruct (Z.leb_spec 0 first_weekday); [|now left].
    destruct (Z.leb_spec first_weekday 6); [lia | now right]. }
  assert (Hraise : forall cb r v,
             add_calendar_page r d cb ordinals first_weekday v
             = (v, inl (IllegalWeekdayError first_weekday))).
  { intros cb r v; unfold add_calendar_page, month_grid, calendar_setfirstweekday.
    rewrite Hguard; reflexivity. }
  split; [apply Hraise|].
  intros outfile size fwd fs; unfold generate_pdf; rewrite Hraise; reflexivity.
Qed.

(** A first weekday of 7. *)
Lemma bad_first_weekday_is_refused_witness :
  add_calendar_page (mkGeom 0 0 700 700) (datetime.mk 2015 2)
                    (draw_cell digits_width) true 7 blank
  = (blank, inl (IllegalWeekdayError 7)).
Proof.
  apply (bad_first_weekday_is_refused digits_width (draw_cell digits_width)
           (mkGeom 0 0 700 700) (datetime.mk 2015 2) true 7 blank).
  lia.
Defined.

Lemma for_each_raises {A} (pre post : list A) (a : A) (body : A -> M unit)
      (e : Exn) (w : World) :
  (forall b v, In b pre -> exists v', body b v = (v', inr tt)) ->
  (forall v, exists v2, body a v = (v2, inl e)) ->
  exists w1 w2,
    for_each pre body w = (w1, inr tt)
    /\ body a w1 = (w2, inl e)
    /\ for_each (pre ++ a :: post) body w = (w2, inl e).
Proof.
  intros Hpre Ha; revert w.
  induction pre as [|b pre IH]; intros w.
  - destruct (Ha w) as (w2 & Hw2).
    exists w, w2; repeat split; [exact Hw2|].
    cbn [app for_each]; now rewrite (bind_inl _ _ _ _ _ Hw2).
  - destruct (Hpre b w (or_introl eq_refl)) as (v' & Hb).
    destruct (IH (fun c v Hc => Hpre c v (or_intror Hc)) v')
      as (w1 & w2 & Hrun & Hraise & Hall).
    exists w1, w2; cbn [app for_each].
    rewrite !(bind_inr _ _ _ _ _ Hb); repeat split; assumption.
Qed.

(** The page when the callback raises on one of the cells. *)
Lemma add_calendar_page_raises (cell_cb : CellCallback) (rect : Geom)
        (d : datetime.t) (ordinals : bool) (first_weekday : Z) (w : World)
        (cal : list (list Z)) (pre post : list (Z * Geom))
        (day : Z) (cell : Geom) (e : Exn) :
  (0 <= first_weekday <= 6)%Z ->
  (1 <= datetime.month d <= 12)%Z ->
  calendar.monthdayscalendar first_weekday (datetime.year d) (datetime.month d)
  = inr cal ->
  visited cal (inset rect)
          (mkSize (width (inset rect) / 7)
                  (height (inset rect) / inject_Z (Py.len cal)))
          (Py.len cal)
  = (pre ++ (day, cell) :: post)%list ->
  (forall day0 cell0 v,
      In (day0, cell0) pre ->
      balanced_at (cell_cb day0 cell0 (font rect) ordinals) v) ->
  (forall v, exists v2, cell_cb day cell (font rect) ordinals v = (v2, inl e)) ->
  exists w1 w2,
    for_each pre (fun '(day0, cell0) =>
                    render_cell cell_cb (line_width rect) (font rect) ordinals
                                day0 cell0)
             {| calendar_c_firstweekday := first_weekday; canvas := canvas w |}
    = (w1, inr tt)
    /\ cell_cb day cell (font rect) ordinals
               (prepared (line_width rect) (font rect) w1) = (w2, inl e)
    /\ add_calendar_page rect d cell_cb ordinals first_weekday w = (w2, inl e).
Proof.
  intros Hfw Hm Hcal Hvis Hpre Hraise.
  destruct (monthdayscalendar_shape first_weekday (datetime.year d)
              (datetime.month d) Hm)
    as (cal' & _ & _ & _ & _ & Hcal' & _ & _ & _ & _ & Hrows & _).
  rewrite Hcal in Hcal'; injection Hcal' as <-.
  destruct (for_each_raises pre post (day, cell)
              (fun '(day0, cell0) =>
                 render_cell cell_cb (line_width rect) (font rect) ordinals
                             day0 cell0) e
              {| calendar_c_firstweekday := first_weekday; canvas := canvas w |})
    as (w1 & w2 & Hrun & Hcell & Hall).
  - intros [day0 cell0] v Hin.
    destruct (Hpre day0 cell0 (prepared (line_width rect) (font rect) v) Hin)
      as (v2 & Hv2 & Hstack).
    exists (restored v v2); now apply render_cell_returns.
  - intros v.
    destruct (Hraise (prepared (line_width rect) (font rect) v)) as (v2 & Hv2).
    exists v2; now apply render_cell_raises.
  - destruct (Hraise (prepared (line_width rect) (font rect) w1)) as (v2 & Hv2).
    rewrite (render_cell_raises _ _ _ _ _ _ _ _ _ Hv2) in Hcell.
    injection Hcell as <-.
    exists w1, v2; split; [exact Hrun|]; split; [exact Hv2|].
    unfold add_calendar_page.
    rewrite (bind_inr _ _ _ _ cal)
      by (rewrite month_grid_run by assumption; now rewrite Hcal).
    unfold lift at 1; rewrite (bind_inr _ _ _ _ _ (f_equal (pair _)
      (cellsize_valid (inset rect) (Py.len cal) ltac:(unfold Py.len; lia)))).
    apply bind_inl; rewrite loops_visit, Hvis; exact Hall.
Qed.

(** X6.  An exception of the callback ends the page.  Let the cells that
    the loops visit be [pre], then [(day, cell)], then [post]; let the
    callback return with the stack balanced on the cells of [pre] and raise
    [e] on [(day, cell)].  Then [add_calendar_page] raises [e], and the
    world is exactly as the callback left it when it raised: the cells of
    [pre] have been rendered, the saved parameters of the failing cell are
    not restored, and neither the cells of [post] nor the label are
    rendered, nor is the page closed. *)
Theorem callback_exception_ends_page (cell_cb : CellCallback) (rect : Geom)
        (d : datetime.t) (ordinals : bool) (first_weekday : Z) (w : World)
        (cal : list (list Z)) (pre post : list (Z * Geom))
        (day : Z) (cell : Geom) (e : Exn) :
  (0 <= first_weekday <= 6)%Z ->
  (1 <= datetime.month d <= 12)%Z ->
  calendar.monthdayscalendar first_weekday (datetime.year d) (datetime.month d)
  = inr cal ->
  visited cal (inset rect)
          (mkSize (width (inset rect) / 7)
                  (height (inset rect) / inject_Z (Py.len cal)))
          (Py.len cal)
  = (pre ++ (day, cell) :: post)%list ->
  (forall day0 cell0 v,
      In (day0, cell0) pre ->
      balanced_at (cell_cb day0 cell0 (font rect) ordinals) v) ->
  (forall v, exists v2, cell_cb day cell (font rect) ordinals v = (v2, inl e)) ->
  exists w1 w2,
    for_each pre (fun '(day0, cell0) =>
                    render_cell cell_cb (line_width rect) (font rect) ordinals
                                day0 cell0)
             {| calendar_c_firstweekday := first_weekday; canvas := canvas w |}
    = (w1, inr tt)
    /\ cell_cb day cell (font rect) ordinals
               (prepared (line_width rect) (font rect) w1) = (w2, inl e)
    /\ add_calendar_page rect d cell_cb ordinals first_weekday w = (w2, inl e).
Proof.
  exact (add_calendar_page_raises cell_cb rect d ordinals first_weekday w cal
           pre post day cell e).
Qed.

(** February 2015 with a callback that fails on the 1st. *)
Lemma callback_exception_ends_page_witness :
  exists w2,
    add_calendar_page (mkGeom 0 0 700 700) (datetime.mk 2015 2) failing_cb
                      false 6 blank
    = (w2, inl (Raised "cannot draw")).
Proof.
  pose (cal := [[1; 2; 3; 4; 5; 6; 7]; [8; 9; 10; 11; 12; 13; 14];
                [15; 16; 17; 18; 19; 20; 21]; [22; 23; 24; 25; 26; 27; 28]]%Z).
  pose (vis := visited cal (inset (mkGeom 0 0 700 700))
                       (mkSize (width (inset (mkGeom 0 0 700 700)) / 7)
                               (height (inset (mkGeom 0 0 700 700))
                                / inject_Z (Py.len cal)))
                       (Py.len cal)).
  destruct (callback_exception_ends_page failing_cb (mkGeom 0 0 700 700)
              (datetime.mk 2015 2) false 6 blank cal [] (tl vis)
              1%Z (snd (hd (0%Z, mkGeom 0 0 0 0) vis)) (Raised "cannot draw"))
    as (w1 & w2 & _ & _ & Hrun).
  - lia.
  - simpl; lia.
  - reflexivity.
  - vm_compute; reflexivity.
  - intros day0 cell0 v [].
  - intros v; eexists; reflexivity.
  - exists w2; exact Hrun.
Defined.

(** ** The ordinal table *)



(** ** The label and the last day *)

Lemma full_month_rows (first_weekday year month : Z) (cal : list (list Z)) :
  (0 <= first_weekday <= 6)%Z ->
  calendar.monthrange year month = inr (first_weekday, 28%Z) ->
  calendar.monthdayscalendar first_weekday year month = inr cal ->
  Py.len cal = 4%Z.
Proof.
  intros Hfw Hmr Hcal.
  destruct (monthdayscalendar_shape first_weekday year month
              (monthrange_month _ _ _ _ Hmr))
    as (cal' & day1' & N' & before & after
        & Hcal' & Hmr' & Hb & Ha & Hcols & Hrows & Hcat).
  rewrite Hmr in Hmr'; injection Hmr' as <- <-.
  rewrite Hcal in Hcal'; injection Hcal' as <-.
  rewrite (Z.mod_small first_weekday 7), Z.sub_diag in Hb by lia.
  change (0 mod 7)%Z with 0%Z in Hb; subst before.
  pose proof (concat_length_7 cal Hcols) as H.
  rewrite Hcat, !length_app, !repeat_length, length_map, length_seq in H.
  unfold Py.len; lia.
Qed.

(** X8.  In a 28-day month that starts on the first weekday the label is
    printed on top of the last day's number.  [draw_month_label] anchors
    its text at the same point of a cell as [draw_cell] anchors the day
    number (half the font size in from the left, 1.3 times the font size
    down from the top); the month fills its four rows, the label goes to
    the bottom-right slot (row 3, column 6), and the page that
    [add_calendar_page] closes holds both the string "28" and the label's
    text at that one anchor. *)
Theorem label_overprints_last_day (stringWidth : string -> string -> Q -> Q)
        (rect : Geom) (d : datetime.t) (ordinals : bool) (first_weekday : Z)
        (w : World) :
  (0 <= first_weekday <= 6)%Z ->
  calendar.monthrange (datetime.year d) (datetime.month d)
  = inr (first_weekday, 28%Z) ->
  exists abbr marks w',
    Py.getitem calendar.month_abbr (datetime.month d) = inr abbr
    /\ add_calendar_page rect d (draw_cell stringWidth) ordinals first_weekday w
       = (w', inr tt)
    /\ reportlab.pages (canvas w')
       = (reportlab.pages (canvas w)
          ++ [reportlab.code (canvas w)
              ++ map (pair (reportlab.mkGState "Helvetica"
                              (size (font rect)) (line_width rect)))
                     marks])%list
    /\ let cs := mkSize (width (inset rect) / 7)
                        (height (inset rect) / inject_Z 4) in
       let cell := cell_geom (inset rect) cs 4 3 6 in
       let ax := x cell + size (font rect) * 0.5 in
       let ay := y cell - size (font rect) * 1.3 in
       In (reportlab.string_mark ax ay (Py.str 28)) marks
       /\ In (reportlab.string_mark ax ay
                (abbr ++ " " ++ Py.str (datetime.year d))) marks.
Proof.
  intros Hfw Hmr.
  pose proof (monthrange_month _ _ _ _ Hmr) as Hm.
  destruct (add_calendar_page_draws stringWidth rect d ordinals first_weekday w
              Hm Hfw) as (cal & day1 & N & abbr & Hcal & Hmr' & Habbr & Hrun).
  rewrite Hmr in Hmr'; injection Hmr' as <- <-.
  pose proof (full_month_rows _ _ _ cal Hfw Hmr Hcal) as Hrows.
  cbv zeta in Hrun; rewrite Hrows, Z.eqb_refl in Hrun.
  eexists abbr, _, _; split; [exact Habbr|]; split; [exact Hrun|].
  split; [reflexivity|]; cbv zeta; split.
  - apply in_or_app; left; apply in_flat_map.
    destruct (date_place first_weekday (datetime.year d) (datetime.month d)
                first_weekday 28 28 Hfw Hmr ltac:(lia))
      as (cal' & Hcal' & _ & H).
    rewrite Hcal in Hcal'; injection Hcal' as <-.
    cbv zeta in H; rewrite Z.sub_diag in H.
    change ((0 mod 7 + 28 - 1) / 7)%Z with 3%Z in H.
    change ((0 mod 7 + 28 - 1) mod 7)%Z with 6%Z in H.
    destruct H as (_ & _ & Hcell).
    destruct (grid_cell_inv _ _ _ _ Hcell) as (week & Hweek & Hday).
    pose proof (visited_in cal (inset rect)
                  (mkSize (width (inset rect) / 7)
                          (height (inset rect) / inject_Z 4)) 4
                  _ _ week 28%Z Hweek Hday) as Hin.
    eexists; split; [exact Hin|].
    unfold cell_marks, date_marks; cbn [fst snd Z.eqb app].
    right; left; reflexivity.
  - apply in_or_app; right; left; reflexivity.
Qed.

(** February 2015 with Sunday first. *)
Lemma label_overprints_last_day_witness :
  exists ax ay marks w',
    add_calendar_page (mkGeom 0 0 700 700) (datetime.mk 2015 2)
                      (draw_cell digits_width) false 6 blank
    = (w', inr tt)
    /\ reportlab.pages (canvas w')
       = [map (pair (reportlab.mkGState "Helvetica"
                       (size (font (mkGeom 0 0 700 700)))
                       (line_width (mkGeom 0 0 700 700))))
              marks]
    /\ In (reportlab.string_mark ax ay "28") marks
    /\ In (reportlab.string_mark ax ay "Feb 2015") marks.
Proof.
  destruct (label_overprints_last_day digits_width (mkGeom 0 0 700 700)
              (datetime.mk 2015 2) false 6 blank ltac:(lia) eq_refl)
    as (abbr & marks & w' & Habbr & Hrun & Hpages & H).
  cbv zeta in H; destruct H as (Hday & Hlabel).
  injection Habbr as <-.
  eexists _, _, marks, w'; repeat split; eassumption.
Defined.

(** ** Room for strokes and text *)





(** ** Writing the file *)

Lemma write_file_same (fs : Files) (path : string) (doc : reportlab.Canvas) :
  write_file fs path doc path = Some doc.
Proof. unfold write_file; now rewrite String.eqb_refl. Qed.

Lemma write_file_other (fs : Files) (path p : string) (doc : reportlab.Canvas) :
  p <> path -> write_file fs path doc p = fs p.
Proof.
  intros Hp; unfold write_file.
  destruct (String.eqb_spec p path); [contradiction | reflexivity].
Qed.

Lemma generate_pdf_run (stringWidth : string -> string -> Q -> Q)
      (d : datetime.t) (outfile : string) (size : Q * Q) (ordinals : bool)
      (first_weekday fwd : Z) (fs : Files) :
  (1 <= datetime.month d <= 12)%Z ->
  (0 <= first_weekday <= 6)%Z ->
  exists page,
    generate_pdf stringWidth d outfile size ordinals first_weekday fwd fs
    = ((first_weekday,
        write_file fs outfile
          {| reportlab.filename := outfile;
             reportlab.pagesize := (fst size, snd size);
             reportlab.gstate := reportlab.init_graphics_state;
             reportlab.state_stack := [];
             reportlab.code := [];
             reportlab.pages := [page] |}),
       inr tt)
    /\ add_calendar_page
         (mkGeom (fst size / 50) (snd size / 50)
                 (fst size - 2 * (fst size / 50))
                 (snd size - 2 * (snd size / 50)))
         d (draw_cell stringWidth) ordinals first_weekday
         {| calendar_c_firstweekday := fwd;
            canvas := reportlab.new outfile (fst size, snd size) |}
       = ({| calendar_c_firstweekday := first_weekday;
             canvas :=
               {| reportlab.filename := outfile;
                  reportlab.pagesize := (fst size, snd size);
                  reportlab.gstate := reportlab.init_graphics_state;
                  reportlab.state_stack := [];
                  reportlab.code := [];
                  reportlab.pages := [page] |} |},
          inr tt).
Proof.
  intros Hm Hfw.
  destruct (add_calendar_page_draws stringWidth
              (mkGeom (fst size / 50) (snd size / 50)
                      (fst size - 2 * (fst size / 50))
                      (snd size - 2 * (snd size / 50)))
              d ordinals first_weekday
              {| calendar_c_firstweekday := fwd;
                 canvas := reportlab.new outfile (fst size, snd size) |}
              Hm Hfw)
    as (cal & day1 & N & abbr & _ & _ & _ & Hrun).
  cbv zeta in Hrun; cbn [canvas reportlab.new reportlab.filename
                           reportlab.pagesize reportlab.code reportlab.pages
                           app] in Hrun.
  eexists; split; [|exact Hrun].
  unfold generate_pdf; cbn [size_width size_height].
  rewrite Hrun; reflexivity.
Qed.

(** X11.  For a month in 1..12 and a first weekday in 0..6, [generate_pdf]
    completes for any page size and any earlier first weekday.  It writes
    one document under [outfile], named after it and of the page size
    given, with exactly one page and nothing left on a page in progress;
    every other file is as before; the module's first weekday is the one
    given.  The page is the one [add_calendar_page] draws with [draw_cell]
    on a fresh canvas, in a target rectangle that leaves a fiftieth of the
    page's width free on the left and on the right and a fiftieth of its
    height at the bottom and at the top. *)
Theorem generate_pdf_writes_one_page (stringWidth : string -> string -> Q -> Q)
        (d : datetime.t) (outfile : string) (size : Q * Q) (ordinals : bool)
        (first_weekday fwd : Z) (fs : Files) :
  (1 <= datetime.month d <= 12)%Z ->
  (0 <= first_weekday <= 6)%Z ->
  exists doc page rect,
    generate_pdf stringWidth d outfile size ordinals first_weekday fwd fs
    = ((first_weekday, write_file fs outfile doc), inr tt)
    /\ write_file fs outfile doc outfile = Some doc
    /\ (forall p, p <> outfile -> write_file fs outfile doc p = fs p)
    /\ reportlab.filename doc = outfile
    /\ reportlab.pagesize doc = (fst size, snd size)
    /\ reportlab.pages doc = [page]
    /\ reportlab.code doc = []
    /\ add_calendar_page rect d (draw_cell stringWidth) ordinals first_weekday
         {| calendar_c_firstweekday := fwd;
            canvas := reportlab.new outfile (fst size, snd size) |}
       = ({| calendar_c_firstweekday := first_weekday; canvas := doc |}, inr tt)
    /\ x rect == fst size / 50
    /\ x rect + width rect == fst size - fst size / 50
    /\ y rect == snd size / 50
    /\ y rect + height rect == snd size - snd size / 50.
Proof.
  intros Hm Hfw.
  destruct (generate_pdf_run stringWidth d outfile size ordinals first_weekday
              fwd fs Hm Hfw) as (page & Hrun & Hpage).
  eexists _, page, _; split; [exact Hrun|].
  split; [apply write_file_same|].
  split; [intros p Hp; now apply write_file_other|].
  do 4 (split; [reflexivity|]).
  split; [exact Hpage|].
  cbn [x y width height]; repeat split; field.
Qed.

(** February 2015 on a letter page, with nothing on disk. *)
Lemma generate_pdf_writes_one_page_witness :
  exists doc page,
    generate_pdf digits_width (datetime.mk 2015 2) "calendar.pdf"
                 letter_landscape true 6 0 (fun _ => None)
    = ((6%Z, write_file (fun _ => None) "calendar.pdf" doc), inr tt)
    /\ reportlab.pages doc = [page].
Proof.
  destruct (generate_pdf_writes_one_page digits_width (datetime.mk 2015 2)
              "calendar.pdf" letter_landscape true 6 0 (fun _ => None)
              ltac:(simpl; lia) ltac:(lia))
    as (doc & page & rect & Hrun & _ & _ & _ & _ & Hpages & _).
  exists doc, page; split; assumption.
Defined.

(** ** The command line *)

Lemma datetime_datetime_valid (year month : Z) :
  (1 <= year <= 9999)%Z -> (1 <= month <= 12)%Z ->
  datetime_datetime year month 1 = inr (datetime.mk year month).
Proof.
  intros Hy Hm; unfold datetime_datetime, datetime.MINYEAR, datetime.MAXYEAR.
  replace (fits_c_int year && fits_c_int month && fits_c_int 1)%bool with true
    by (symmetry; unfold fits_c_int; rewrite !andb_true_iff;
        repeat split; apply Z.leb_le; lia).
  cbn [negb].
  replace ((1 <=? year)%Z && (year <=? 9999)%Z)%bool with true
    by (symmetry; apply andb_true_iff; split; apply Z.leb_le; lia).
  replace ((1 <=? month)%Z && (month <=? 12)%Z)%bool with true
    by (symmetry; apply andb_true_iff; split; apply Z.leb_le; lia).
  cbn [negb].
  replace (1 <=? _days_in_month year month)%Z with true; [reflexivity|].
  symmetry; apply Z.leb_le; unfold _days_in_month.
  assert (Hcases : (month = 1 \/ month = 2 \/ month = 3 \/ month = 4
                    \/ month = 5 \/ month = 6 \/ month = 7 \/ month = 8
                    \/ month = 9 \/ month = 10 \/ month = 11 \/ month = 12)%Z)
    by lia.
  repeat (destruct Hcases as [-> | Hcases]); try subst month;
    destruct (datetime._is_leap year); cbv; discriminate.
Qed.

Lemma datetime_datetime_invalid (year month : Z) :
  ~ ((1 <= year <= 9999)%Z /\ (1 <= month <= 12)%Z) ->
  datetime_datetime year month 1
  = inl (if (fits_c_int year && fits_c_int month)%bool
         then ValueError else OverflowError).
Proof.
  intros Hbad; unfold datetime_datetime, datetime.MINYEAR, datetime.MAXYEAR.
  change (fits_c_int 1) with true; rewrite andb_true_r.
  destruct (fits_c_int year && fits_c_int month)%bool; [|reflexivity].
  cbn [negb].
  destruct ((1 <=? year)%Z && (year <=? 9999)%Z)%bool eqn:Ey; [|reflexivity].
  destruct ((1 <=? month)%Z && (month <=? 12)%Z)%bool eqn:Em; [|reflexivity].
  exfalso; apply Hbad.
  apply andb_true_iff in Ey as [Ey1 Ey2], Em as [Em1 Em2].
  apply Z.leb_le in Ey1, Ey2, Em1, Em2; lia.
Qed.

Lemma paper_sizes_total (size : PaperSize) :
  exists t, Py.dict_getitem PaperSize_eqb PAPER_SIZES size = inr t
            /\ 0 < fst t /\ fst t < snd t.
Proof.
  destruct size; eexists; (split; [reflexivity|]); split; reflexivity.
Qed.

Lemma landscape_wide (pagesize : Q * Q) :
  snd (pagesizes.landscape pagesize) <= fst (pagesizes.landscape pagesize).
Proof.
  destruct pagesize as [a b]; unfold pagesizes.landscape.
  destruct (Qle_bool b a) eqn:E; cbn [negb fst snd].
  - now apply Qle_bool_iff.
  - destruct (Qlt_le_dec a b) as [H | H]; [now apply Qlt_le_weak|].
    apply Qle_bool_iff in H; congruence.
Qed.

(** X12.  The command line checks the date before it opens anything: for a
    year outside 1..9999 or a month outside 1..12, whatever the paper size
    and the other options, [cli] raises from the constructor of the date,
    no file is written and the [calendar] module's first weekday is
    untouched.  The exception is [ValueError] when year and month fit a C
    [int] (32 bits) and [OverflowError] when one of them does not. *)
Theorem cli_rejects_bad_date (stringWidth : string -> string -> Q -> Q)
        (year month : Z) (file : string) (size : PaperSize)
        (landscape ordinals : bool) (fwd : Z) (fs : Files) :
  ~ ((1 <= year <= 9999)%Z /\ (1 <= month <= 12)%Z) ->
  cli stringWidth year month file size landscape ordinals fwd fs
  = ((fwd, fs),
     inl (if (fits_c_int year && fits_c_int month)%bool
          then ValueError else OverflowError)).
Proof.
  intros Hbad; unfold cli.
  destruct (paper_sizes_total size) as (t & -> & _).
  now rewrite datetime_datetime_invalid.
Qed.

(** Month 13. *)
Lemma cli_rejects_bad_date_witness :
  cli digits_width 2024 13 "calendar.pdf" letter true false 0 (fun _ => None)
  = ((0%Z, fun _ => None), inl ValueError).
Proof.
  apply (cli_rejects_bad_date digits_width 2024 13 "calendar.pdf" letter true
           false 0 (fun _ => None)).
  lia.
Defined.

(** X13.  For a year in 1..9999 and a month in 1..12, [cli] completes for
    every paper size and every setting of its options: each paper size has
    an entry in [PAPER_SIZES], so the lookup never fails.  It writes one
    document of one page under [file] and leaves the other files alone.
    The page has the size of the table's entry, which is higher than wide,
    or, with [landscape], that size turned so that it is at least as wide
    as high.  The weeks start on Sunday, and Sunday is the first weekday
    the [calendar] module is left with. *)
Theorem cli_writes_one_page (stringWidth : string -> string -> Q -> Q)
        (year month : Z) (file : string) (size : PaperSize)
        (landscape ordinals : bool) (fwd : Z) (fs : Files) :
  (1 <= year <= 9999)%Z -> (1 <= month <= 12)%Z ->
  exists t doc page,
    Py.dict_getitem PaperSize_eqb PAPER_SIZES size = inr t
    /\ fst t < snd t
    /\ cli stringWidth year month file size landscape ordinals fwd fs
       = ((calendar.SUNDAY, write_file fs file doc), inr tt)
    /\ (forall p, p <> file -> write_file fs file doc p = fs p)
    /\ reportlab.pages doc = [page]
    /\ reportlab.pagesize doc
       = (if landscape then (snd t, fst t) else (fst t, snd t))
    /\ (if landscape
        then snd (reportlab.pagesize doc) <= fst (reportlab.pagesize doc)
        else fst (reportlab.pagesize doc) < snd (reportlab.pagesize doc))
    /\ generate_pdf stringWidth (datetime.mk year month) file
                    (reportlab.pagesize doc) ordinals calendar.SUNDAY fwd fs
       = ((calendar.SUNDAY, write_file fs file doc), inr tt).
Proof.
  intros Hy Hm.
  destruct (paper_sizes_total size) as ([a b] & Ht & Hpos & Hportrait).
  cbn [fst snd] in *.
  assert (Hland : pagesizes.landscape (a, b) = (b, a)).
  { unfold pagesizes.landscape.
    replace (Qle_bool b a) with false; [reflexivity|].
    symmetry; apply not_true_iff_false; intros H.
    apply Qle_bool_iff in H; lra. }
  assert (Hcli : forall t',
             t' = (if landscape then (b, a) else (a, b)) ->
             cli stringWidth year month file size landscape ordinals fwd fs
             = generate_pdf stringWidth (datetime.mk year month) file t'
                            ordinals calendar.SUNDAY fwd fs).
  { intros t' ->; unfold cli.
    rewrite Ht, datetime_datetime_valid by assumption.
    destruct landscape; rewrite ?Hland; reflexivity. }
  assert (Hsunday : (0 <= calendar.SUNDAY <= 6)%Z) by (unfold calendar.SUNDAY; lia).
  exists (a, b); cbn [fst snd].
  destruct landscape.
  - destruct (generate_pdf_run stringWidth (datetime.mk year month) file (b, a)
                ordinals calendar.SUNDAY fwd fs Hm Hsunday)
      as (page & Hrun & _).
    cbn [fst snd] in Hrun.
    eexists _, page; split; [exact Ht|]; split; [exact Hportrait|].
    split; [rewrite (Hcli (b, a) eq_refl); exact Hrun|].
    split; [intros p Hp; now apply write_file_other|].
    split; [reflexivity|]; split; [reflexivity|]; cbn [reportlab.pagesize fst snd].
    split; [lra | exact Hrun].
  - destruct (generate_pdf_run stringWidth (datetime.mk year month) file (a, b)
                ordinals calendar.SUNDAY fwd fs Hm Hsunday)
      as (page & Hrun & _).
    cbn [fst snd] in Hrun.
    eexists _, page; split; [exact Ht|]; split; [exact Hportrait|].
    split; [rewrite (Hcli (a, b) eq_refl); exact Hrun|].
    split; [intros p Hp; now apply write_file_other|].
    split; [reflexivity|]; split; [reflexivity|]; cbn [reportlab.pagesize fst snd].
    split; [lra | exact Hrun].
Qed.

(** January 2024 on a 4 by 6 label, turned. *)
Lemma cli_writes_one_page_witness :
  exists doc page,
    cli digits_width 2024 1 "calendar.pdf" label_4x6 true true 0 (fun _ => None)
    = ((6%Z, write_file (fun _ => None) "calendar.pdf" doc), inr tt)
    /\ reportlab.pages doc = [page]
    /\ reportlab.pagesize doc = (6 * pagesizes.inch, 4 * pagesizes.inch).
Proof.
  destruct (cli_writes_one_page digits_width 2024 1 "calendar.pdf" label_4x6
              true true 0 (fun _ => None) ltac:(lia) ltac:(lia))
    as (t & doc & page & Ht & _ & Hrun & _ & Hpages & Hsize & _).
  injection Ht as <-.
  exists doc, page; repeat split; assumption.
Defined.

(** ** The scale of the page *)

(** C4.  For a month in 1..12 and a first weekday in 0..6, let [scale] be
    the smaller of the target rectangle's width and height,
    [stroke = scale * 0.0025] and [R] the target rectangle moved in by
    [stroke] on every side.  [add_calendar_page] run with [draw_cell]
    closes a page on which every mark is drawn with the font Helvetica at
    [scale * 0.028] and the line width [stroke]; the font handed to the
    callback is that same font, and the cells are those of [R] cut into 7
    columns and [rows] rows, so the grid starts [stroke] inside the target
    rectangle on the left and at the top and ends [stroke] inside it on the
    right and at the bottom.  A second target rectangle with the same
    smaller dimension is drawn with the same font size and line width,
    whatever else differs. *)
Theorem scale_and_inset (stringWidth : string -> string -> Q -> Q)
        (rect rect' : Geom) (d : datetime.t) (ordinals : bool)
        (first_weekday : Z) (w : World) :
  Py.min (width rect) (height rect) == Py.min (width rect') (height rect') ->
  (1 <= datetime.month d <= 12)%Z ->
  (0 <= first_weekday <= 6)%Z ->
  exists cal label label',
    let rows := Py.len cal in
    let page := fun (r : Geom) (lbl : reportlab.Mark) =>
      let scale := Py.min (width r) (height r) in
      let stroke := scale * 0.0025 in
      let R := mkGeom (x r + stroke) (y r + stroke)
                      (width r - stroke * 2) (height r - stroke * 2) in
      let cs := mkSize (width R / 7) (height R / inject_Z rows) in
      map (pair (reportlab.mkGState "Helvetica" (scale * 0.028) stroke))
          (flat_map (cell_marks stringWidth (mkFont "Helvetica" (scale * 0.028))
                                ordinals)
                    (visited cal R cs rows)
           ++ [lbl]) in
    let result := fun (r : Geom) (lbl : reportlab.Mark) =>
      ({| calendar_c_firstweekday := first_weekday;
          canvas :=
            {| reportlab.filename := reportlab.filename (canvas w);
               reportlab.pagesize := reportlab.pagesize (canvas w);
               reportlab.gstate := reportlab.init_graphics_state;
               reportlab.state_stack := [];
               reportlab.code := [];
               reportlab.pages :=
                 reportlab.pages (canvas w)
                 ++ [reportlab.code (canvas w) ++ page r lbl] |} |},
       inr tt) in
    add_calendar_page rect d (draw_cell stringWidth) ordinals first_weekday w
    = result rect label
    /\ add_calendar_page rect' d (draw_cell stringWidth) ordinals first_weekday w
       = result rect' label'
    /\ Py.min (width rect') (height rect') * 0.028
       == Py.min (width rect) (height rect) * 0.028
    /\ Py.min (width rect') (height rect') * 0.0025
       == Py.min (width rect) (height rect) * 0.0025
    /\ let stroke := Py.min (width rect) (height rect) * 0.0025 in
       let R := mkGeom (x rect + stroke) (y rect + stroke)
                       (width rect - stroke * 2) (height rect - stroke * 2) in
       let cs := mkSize (width R / 7) (height R / inject_Z rows) in
       let first := cell_geom R cs rows 0 0 in
       let last := cell_geom R cs rows (rows - 1) 6 in
       x first == x rect + stroke
       /\ y first == y rect + height rect - stroke
       /\ x last + width last == x rect + width rect - stroke
       /\ y last - height last == y rect + stroke.
Proof.
  intros Hmin Hm Hfw.
  destruct (add_calendar_page_draws stringWidth rect d ordinals first_weekday w
              Hm Hfw) as (cal & day1 & N & abbr & Hcal & _ & _ & Hrun).
  destruct (add_calendar_page_draws stringWidth rect' d ordinals first_weekday w
              Hm Hfw) as (cal' & day1' & N' & abbr' & Hcal' & _ & _ & Hrun').
  rewrite Hcal in Hcal'; injection Hcal' as <-.
  destruct (monthdayscalendar_shape first_weekday (datetime.year d)
              (datetime.month d) Hm)
    as (cal' & _ & _ & _ & _ & Hcal' & _ & _ & _ & _ & Hrows & _).
  rewrite Hcal in Hcal'; injection Hcal' as <-.
  assert (Hnz : ~ inject_Z (Py.len cal) == 0)
    by (apply rows_nonzero; unfold Py.len; lia).
  cbv zeta in Hrun, Hrun'.
  eexists cal, _, _; cbv zeta.
  split; [exact Hrun|]. split; [exact Hrun'|].
  split; [now rewrite Hmin|]. split; [now rewrite Hmin|].
  cbn [cell_geom x y width height size_width size_height].
  replace (Py.len cal - (Py.len cal - 1))%Z with 1%Z by lia.
  replace (Py.len cal - 0)%Z with (Py.len cal) by lia.
  change (inject_Z 0) with 0; change (inject_Z 1) with 1;
    change (inject_Z 6) with 6.
  repeat split; field; exact Hnz.
Qed.

(** A portrait and a landscape rectangle, both 700 across the smaller side,
    for February 2015. *)
Lemma scale_and_inset_witness :
  exists w1 w2,
    add_calendar_page (mkGeom 0 0 700 900) (datetime.mk 2015 2)
                      (draw_cell digits_width) true 6 blank = (w1, inr tt)
    /\ add_calendar_page (mkGeom 5 5 800 700) (datetime.mk 2015 2)
                         (draw_cell digits_width) true 6 blank = (w2, inr tt).
Proof.
  destruct (scale_and_inset digits_width (mkGeom 0 0 700 900)
              (mkGeom 5 5 800 700) (datetime.mk 2015 2) true 6 blank)
    as (cal & label & label' & H).
  - vm_compute; reflexivity.
  - simpl; lia.
  - lia.
  - cbv zeta in H; destruct H as (H1 & H2 & _).
    eexists _, _; split; [exact H1 | exact H2].
Defined.

(** ** Saving and restoring, cell by cell and for the whole page *)

(** C7, amended.  Each cell is rendered between a [saveState] and a
    [restoreState], after the font and line width of the page have been
    set.  When the callback returns and leaves the stack of saved
    parameters as it found it, the restore runs: the cell as a whole
    returns, the drawing parameters and the stack are exactly those found
    before the cell, and the marks are those of the callback.  When the
    callback raises, the cell raises the same exception with the canvas as
    the callback left it.  The label is rendered in the same way and
    leaves the parameters as found.  For a callback that always returns
    balanced, both loops return with the parameters as found, and
    [add_calendar_page] completes for every month in 1..12 and first
    weekday in 0..6.  When the callback returns balanced on the cells
    visited first and raises on the next one, [add_calendar_page] raises
    that exception at once, with the world exactly as the callback left
    it: the restore of that cell is not run and no later cell, no label
    and no [showPage] follow. *)
Theorem render_cell_scoped (cell_cb : CellCallback) (stroke : Q)
        (fnt : Font) (ordinals : bool) (day : Z) (cell : Geom)
        (w w2 : World) (r : Result unit) :
  cell_cb day cell fnt ordinals (prepared stroke fnt w) = (w2, r) ->
  (r = inr tt ->
   reportlab.state_stack (canvas w2)
   = reportlab.state_stack (canvas (prepared stroke fnt w)) ->
   render_cell cell_cb stroke fnt ordinals day cell w
   = (restored w w2, inr tt)
   /\ same_params w (restored w w2)
   /\ reportlab.code (canvas (restored w w2)) = reportlab.code (canvas w2))
  /\ (forall e, r = inl e ->
        render_cell cell_cb stroke fnt ordinals day cell w = (w2, inl e))
  /\ (forall d cal rect cellsize rows row col abbr,
        label_slot cal rows = inr (row, col) ->
        Py.getitem calendar.month_abbr (datetime.month d) = inr abbr ->
        exists w',
          render_label d stroke fnt cal rect cellsize rows w = (w', inr tt)
          /\ same_params w w')
  /\ (returns_balanced cell_cb ->
      forall cal cell_of,
      exists w',
        for_each (Py.enumerate cal) (fun '(row, week) =>
          for_each (Py.enumerate week) (fun '(col, day) =>
            render_cell cell_cb stroke fnt ordinals day (cell_of row col))) w
        = (w', inr tt)
        /\ same_params w w')
  /\ (returns_balanced cell_cb ->
      forall rect d first_weekday w0,
        (1 <= datetime.month d <= 12)%Z -> (0 <= first_weekday <= 6)%Z ->
        exists wf,
          add_calendar_page rect d cell_cb ordinals first_weekday w0
          = (wf, inr tt))
  /\ (forall rect d first_weekday w0 cal pre post day' cell' e,
        (0 <= first_weekday <= 6)%Z ->
        (1 <= datetime.month d <= 12)%Z ->
        calendar.monthdayscalendar first_weekday (datetime.year d)
                                   (datetime.month d) = inr cal ->
        visited cal (inset rect)
                (mkSize (width (inset rect) / 7)
                        (height (inset rect) / inject_Z (Py.len cal)))
                (Py.len cal)
        = (pre ++ (day', cell') :: post)%list ->
        (forall day0 cell0 v,
            In (day0, cell0) pre ->
            balanced_at (cell_cb day0 cell0 (font rect) ordinals) v) ->
        (forall v, exists v2,
            cell_cb day' cell' (font rect) ordinals v = (v2, inl e)) ->
        exists w1 w3,
          for_each pre (fun '(day0, cell0) =>
                          render_cell cell_cb (line_width rect)
                                      (font rect) ordinals day0 cell0)
                   {| calendar_c_firstweekday := first_weekday;
                      canvas := canvas w0 |}
          = (w1, inr tt)
          /\ cell_cb day' cell' (font rect) ordinals
                     (prepared (line_width rect)
                               (font rect) w1)
             = (w3, inl e)
          /\ add_calendar_page rect d cell_cb ordinals first_weekday w0
             = (w3, inl e)).
Proof.
  intros Hcb; split; [|split; [|split; [|split; [|split]]]].
  - intros -> Hstack; repeat split.
    now apply render_cell_returns.
  - intros e ->; now apply render_cell_raises.
  - intros d cal rect cs rows row col abbr Hslot Habbr.
    eexists; split.
    + exact (render_label_returns d stroke fnt cal rect cs rows row col
               abbr w Hslot Habbr).
    + apply same_params_restored.
  - intros Hbal cal cell_of; now apply cells_return.
  - intros Hbal rect d first_weekday w0 Hm Hfw.
    destruct (add_calendar_page_run cell_cb rect d ordinals first_weekday w0
                Hbal Hm Hfw) as (cal & day1 & N & abbr & w1 & _ & _ & _ & _ & H).
    cbv zeta in H; destruct H as (_ & _ & _ & _ & Hrun).
    eexists; exact Hrun.
  - intros rect d first_weekday w0 cal pre post day' cell' e.
    apply add_calendar_page_raises.
Qed.

(** The 1st of the month drawn by [draw_cell] on a fresh canvas. *)
Lemma render_cell_scoped_witness :
  exists w2,
    render_cell (draw_cell digits_width) 1.75 (mkFont "Helvetica" 19.6) true 1%Z
                (mkGeom 0 700 100 100) blank
    = (restored blank w2, inr tt)
    /\ same_params blank (restored blank w2).
Proof.
  pose (w1 := prepared 1.75 (mkFont "Helvetica" 19.6) blank).
  pose (run := draw_cell digits_width 1%Z (mkGeom 0 700 100 100)
                         (mkFont "Helvetica" 19.6) true w1).
  destruct (render_cell_scoped (draw_cell digits_width) 1.75
              (mkFont "Helvetica" 19.6) true 1%Z (mkGeom 0 700 100 100)
              blank (fst run) (snd run) (surjective_pairing run))
    as (Hret & _).
  exists (fst run).
  destruct (Hret eq_refl eq_refl) as (Hrun & Hparams & _).
  split; assumption.
Defined.
